(** * Edumate: the message-understanding and response pipeline

    A shallow embedding of [backend/services/ai_services.py],
    [backend/services/rasa_service.py], [backend/services/language_service.py]
    and of the [/message] route of [backend/api/chat_routes.py], with the
    properties of the pipeline stated and proved over it.

    Conventions of the embedding.
    - A Python [str] is a [string] holding the UTF-8 bytes of the text.  The
      operator [in] on two [str] is then substring search on bytes.  [lower],
      [split] and [strip] act on the ASCII letters and the ASCII white space as
      Python does; cased letters and white space outside ASCII are outside the
      model.
    - A Python [float] that the code computes is a rational [Q].  Every float
      of the pipeline is a quotient of two small integers (a score that is a
      multiple of 0.5 divided by 10, or a count divided by a count), and the
      comparisons the code makes on them ([>= 0.3], [>= 0.7], the ordering of
      hits that share one denominator) give the same answer on the correctly
      rounded doubles as on the exact quotients.
    - A [dict] whose iteration order matters is an association list in
      insertion order.
    - A [try] is a computation that returns [Ok] or [Raise]; its [except]
      is a match on the two.  An argument that Python leaves untyped and that
      the code can fail on is a [pyval].
    - What lies outside the process (the translator, the HTTP client, the
      session table, the UUID generator, the clock) is a record [World] of
      functions; the route returns its answer together with the list of the
      calls it made.  The writes to the database are listed among the calls
      and taken to succeed. *)

From Stdlib Require Import String Ascii List Bool Arith ZArith QArith Qminmax Lia.
From Stdlib Require Import DecimalString DecimalZ.
From Stdlib Require Import Lqa.
From Stdlib Require Import Sorting.Sorted Sorting.Permutation.
Import ListNotations.

Open Scope list_scope.
Open Scope string_scope.

(** ** Python strings *)

Module PyStr.

(** [c.lower()] for one ASCII character. *)
Definition lower_ascii (c : ascii) : ascii :=
  let n := nat_of_ascii c in
  if (65 <=? n)%nat && (n <=? 90)%nat then ascii_of_nat (n + 32) else c.

(** [s.lower()] *)
Fixpoint lower (s : string) : string :=
  match s with
  | EmptyString => EmptyString
  | String c s' => String (lower_ascii c) (lower s')
  end.

(** [w in t] for two strings: [w] occurs in [t] as a substring. *)
Fixpoint str_in (w t : string) : bool :=
  if String.prefix w t then true
  else match t with
       | EmptyString => false
       | String _ t' => str_in w t'
       end.

(** [any(k in t for k in ks)] *)
Definition any_in (ks : list string) (t : string) : bool :=
  existsb (fun k => str_in k t) ks.

(** The ASCII characters for which [str.isspace] holds. *)
Definition is_space (c : ascii) : bool :=
  let n := nat_of_ascii c in
  ((9 <=? n)%nat && (n <=? 13)%nat) || ((28 <=? n)%nat && (n <=? 32)%nat).

(** [s.split()]: the maximal runs of characters that are not white space.
    [cur] is the run being read. *)
Fixpoint split_from (cur s : string) : list string :=
  match s with
  | EmptyString => if String.eqb cur "" then [] else [cur]
  | String c s' =>
      if is_space c
      then (if String.eqb cur "" then split_from "" s'
            else cur :: split_from "" s')
      else split_from (cur ++ String c "") s'
  end.

Definition split (s : string) : list string := split_from "" s.

Fixpoint lstrip (s : string) : string :=
  match s with
  | String c s' => if is_space c then lstrip s' else s
  | EmptyString => EmptyString
  end.

Fixpoint rev_str (acc s : string) : string :=
  match s with
  | EmptyString => acc
  | String c s' => rev_str (String c acc) s'
  end.

(** [s.strip()] *)
Definition strip (s : string) : string :=
  rev_str "" (lstrip (rev_str "" (lstrip s))).

(** [sep.join(l)] *)
Fixpoint join (sep : string) (l : list string) : string :=
  match l with
  | [] => ""
  | x :: l' => match l' with
               | [] => x
               | _ :: _ => x ++ sep ++ join sep l'
               end
  end.

(** [str(n)] for an [int]. *)
Definition of_int (z : Z) : string := NilEmpty.string_of_int (Z.to_int z).

(** [s.replace(a, b)] for a one-character [a] and [b]. *)
Fixpoint replace_char (a b : ascii) (s : string) : string :=
  match s with
  | EmptyString => EmptyString
  | String c s' =>
      String (if Ascii.eqb c a then b else c) (replace_char a b s')
  end.

Definition is_alpha (c : ascii) : bool :=
  let n := nat_of_ascii c in
  ((65 <=? n)%nat && (n <=? 90)%nat) || ((97 <=? n)%nat && (n <=? 122)%nat).

Definition upper_ascii (c : ascii) : ascii :=
  let n := nat_of_ascii c in
  if (97 <=? n)%nat && (n <=? 122)%nat then ascii_of_nat (n - 32) else c.

(** [s.title()]: a letter that follows a letter is lower-cased, any other
    letter is upper-cased.  [prev] tells whether the previous character was a
    letter. *)
Fixpoint title_from (prev : bool) (s : string) : string :=
  match s with
  | EmptyString => EmptyString
  | String c s' =>
      String (if prev then lower_ascii c else upper_ascii c)
             (title_from (is_alpha c) s')
  end.

Definition title (s : string) : string := title_from false s.

End PyStr.

(** ** Values of the knowledge store *)

(** The literals the store is built from: strings, integers, lists and
    dictionaries. *)
#[warnings="-register-all"]
Inductive json : Type :=
| JInt (z : Z)
| JStr (s : string)
| JList (l : list json)
| JDict (d : list (string * json)).

Module Json.

Definition dquote : ascii := ascii_of_nat 34.
Definition backslash : ascii := ascii_of_nat 92.

Definition hex_digit (n : nat) : ascii :=
  if (n <? 10)%nat then ascii_of_nat (48 + n) else ascii_of_nat (87 + n).

(** The escape [json.dumps] writes for one character of a string. *)
Definition escape_char (c : ascii) : string :=
  let n := nat_of_ascii c in
  if (n =? 34)%nat then String backslash (String dquote "")
  else if (n =? 92)%nat then String backslash (String backslash "")
  else if (n =? 10)%nat then "\n"
  else if (n =? 13)%nat then "\r"
  else if (n =? 9)%nat then "\t"
  else if (n =? 8)%nat then "\b"
  else if (n =? 12)%nat then "\f"
  else if (n <? 32)%nat
       then "\u00" ++ String (hex_digit (n / 16)) (String (hex_digit (n mod 16)) "")
  else String c "".

Fixpoint escape (s : string) : string :=
  match s with
  | EmptyString => EmptyString
  | String c s' => escape_char c ++ escape s'
  end.

Definition dumps_str (s : string) : string :=
  String dquote (escape s ++ String dquote "").

(** [json.dumps(v)] with the default separators [", "] and [": "].  The
    store holds ASCII text only, on which the escapes above are all of
    them. *)
Fixpoint dumps (v : json) : string :=
  match v with
  | JInt z => PyStr.of_int z
  | JStr s => dumps_str s
  | JList l =>
      "[" ++ (fix items (l : list json) : string :=
                match l with
                | [] => ""
                | x :: l' => match l' with
                             | [] => dumps x
                             | _ :: _ => dumps x ++ ", " ++ items l'
                             end
                end) l ++ "]"
  | JDict d =>
      "{" ++ (fix members (d : list (string * json)) : string :=
                match d with
                | [] => ""
                | (k, x) :: d' =>
                    match d' with
                    | [] => dumps_str k ++ ": " ++ dumps x
                    | _ :: _ => dumps_str k ++ ": " ++ dumps x ++ ", " ++ members d'
                    end
                end) d ++ "}"
  end.

End Json.

(** ** Dictionaries in insertion order *)

Module Dict.
Section Ops.
Context {V : Type}.

(** [d.get(k)] *)
Fixpoint get (k : string) (d : list (string * V)) : option V :=
  match d with
  | [] => None
  | (k', v) :: d' => if String.eqb k k' then Some v else get k d'
  end.

(** [k in d] *)
Definition mem (k : string) (d : list (string * V)) : bool :=
  match get k d with Some _ => true | None => false end.

(** [list(d.keys())] *)
Definition keys (d : list (string * V)) : list string := map fst d.
End Ops.
End Dict.

(** ** Python's stable sort, descending on a key

    [l.sort(key=k, reverse=True)] is the one arrangement of [l] that is
    non-increasing in [k] and keeps elements of equal key in their order in
    [l]; insertion from the right computes it. *)

Section StableSort.
Context {A : Type}.
Variable key : A -> Q.

Definition Qltb (a b : Q) : bool := negb (Qle_bool b a).

Fixpoint insert_desc (x : A) (l : list A) : list A :=
  match l with
  | [] => [x]
  | y :: l' => if Qltb (key x) (key y) then y :: insert_desc x l' else x :: l
  end.

Fixpoint sort_desc (l : list A) : list A :=
  match l with
  | [] => []
  | x :: l' => insert_desc x (sort_desc l')
  end.
End StableSort.

(** ** The knowledge store: [CollegeKnowledgeBase] *)

(** The store maps a category to a dictionary of subcategories; every
    top-level value of the source's literal is a [dict], so
    [isinstance(category_data, dict)] holds of each. *)
Definition Store : Type := list (string * list (string * json)).

Definition strs (l : list string) : json := JList (map JStr l).

(** [self.knowledge_base], as [__init__] builds it. *)
Definition knowledge_base : Store :=
  [ ("courses",
      [ ("btech", JDict
          [ ("full_name", JStr "Bachelor of Technology");
            ("duration", JStr "4 years");
            ("specializations",
              strs ["Computer Science"; "Electronics"; "Mechanical"; "Civil"; "Electrical"]);
            ("eligibility", JStr "12th with PCM, minimum 75%");
            ("fee_range", JStr "1.5-2.5 lakh per year");
            ("career_options",
              strs ["Software Engineer"; "Data Scientist"; "System Administrator"]) ]);
        ("mtech", JDict
          [ ("full_name", JStr "Master of Technology");
            ("duration", JStr "2 years");
            ("specializations",
              strs ["AI/ML"; "VLSI"; "Power Systems"; "Structural Engineering"]);
            ("eligibility", JStr "BE/BTech with 60% minimum");
            ("fee_range", JStr "2-3 lakh per year");
            ("career_options",
              strs ["Research Scientist"; "Technical Lead"; "Product Manager"]) ]);
        ("mba", JDict
          [ ("full_name", JStr "Master of Business Administration");
            ("duration", JStr "2 years");
            ("specializations",
              strs ["Marketing"; "Finance"; "HR"; "Operations"; "Strategy"]);
            ("eligibility", JStr "Any graduate with 50% + CAT/MAT");
            ("fee_range", JStr "3-5 lakh per year");
            ("career_options",
              strs ["Manager"; "Consultant"; "Business Analyst"; "Entrepreneur"]) ]) ]);
    ("admission_process",
      [ ("application_period", JStr "May 1 - June 30");
        ("entrance_exam",
          JStr "JEE Main/Advanced for BTech, GATE for MTech, CAT/MAT for MBA");
        ("selection_criteria", JStr "Entrance exam score + 12th marks + Interview");
        ("documents_required",
          strs [ "10th and 12th mark sheets";
                 "Transfer certificate";
                 "Character certificate";
                 "Caste certificate (if applicable)";
                 "Income certificate";
                 "Passport size photos" ]) ]);
    ("facilities",
      [ ("library", JDict
          [ ("books", JStr "50,000+ books and journals");
            ("digital", JStr "Access to IEEE, ACM, Springer databases");
            ("timings", JStr "8:00 AM - 10:00 PM (Mon-Sat), 9:00 AM - 6:00 PM (Sun)");
            ("features",
              strs ["Silent reading zones"; "Group discussion rooms"; "Computer terminals"]) ]);
        ("hostel", JDict
          [ ("capacity", JStr "2000 students");
            ("room_types", strs ["Single"; "Double"; "Triple occupancy"]);
            ("facilities",
              strs ["Wi-Fi"; "Mess"; "Recreation room"; "Gym"; "Medical room"]);
            ("fees", JStr "Rs. 4,500-8,000 per month");
            ("mess_charges", JStr "Rs. 3,500 per month") ]);
        ("labs", JDict
          [ ("computer_labs", JStr "5 labs with 200+ computers");
            ("specialized_labs",
              strs ["VLSI Lab"; "Robotics Lab"; "IoT Lab"; "AI/ML Lab"]);
            ("equipment", JStr "Latest software and hardware");
            ("access_hours", JStr "9:00 AM - 8:00 PM") ]) ]);
    ("placement_stats",
      [ ("overall_percentage", JInt 95);
        ("average_package", JStr "8.5 LPA");
        ("highest_package", JStr "45 LPA");
        ("top_recruiters",
          strs [ "Microsoft"; "Google"; "Amazon"; "TCS"; "Infosys";
                 "Wipro"; "Accenture"; "IBM"; "Flipkart"; "Paytm" ]);
        ("placement_process",
          strs [ "Pre-placement talks (September)";
                 "Resume preparation workshops";
                 "Mock interviews";
                 "Campus drives (November-March)";
                 "Final placements" ]) ]) ].

(** The dictionary [get_information] returns; a key that a branch does not
    set is [None]. *)
Record InfoResult : Type := mkInfo {
  success : bool;
  data : option json;
  category : option string;
  subcategory : option string;
  error : option string;
  available_categories : option (list string)
}.

(** The dictionary [search_information] appends for one entry. *)
Record SearchHit : Type := mkHit {
  hit_category : string;
  hit_subcategory : string;
  hit_data : json;
  relevance_score : Q
}.

Module CollegeKnowledgeBase.
Section WithStore.
Variable kb : Store.

(** Truth value of an optional string argument: [None] and [''] are
    false. *)
Definition truthy (s : option string) : bool :=
  match s with
  | Some s => negb (String.eqb s "")
  | None => false
  end.

(** [get_information(category, subcategory=None)].  No operation of the
    body raises on a store of this type, so the [except] branch is not
    taken. *)
Definition get_information (cat : string) (subcat : option string)
  : InfoResult :=
  match Dict.get cat kb with
  | Some category_data =>
      match (if truthy subcat then subcat else None) with
      | Some sub =>
          match Dict.get sub category_data with
          | Some d => mkInfo true (Some d) (Some cat) (Some sub) None None
          | None => mkInfo true (Some (JDict category_data)) (Some cat) None None None
          end
      | None => mkInfo true (Some (JDict category_data)) (Some cat) None None None
      end
  | None =>
      mkInfo false None None None
             (Some ("Category " ++ cat ++ " not found"))
             (Some (Dict.keys kb))
  end.

(** [sum(1 for word in query_words if word in searchable_text)] *)
Definition count_matches (query_words : list string) (searchable_text : string)
  : nat :=
  length (filter (fun word => PyStr.str_in word searchable_text) query_words).

(** [matches / len(query_words)] *)
Definition ratio (matches total : nat) : Q :=
  inject_Z (Z.of_nat matches) / inject_Z (Z.of_nat total).

(** The body of the inner loop: the hits one subcategory contributes. *)
Definition scan_entry (query_lower cat : string) (entry : string * json)
  : list SearchHit :=
  let '(subcat, subcategory_data) := entry in
  let searchable_text := PyStr.lower (Json.dumps subcategory_data) in
  let query_words := PyStr.split query_lower in
  let matches := count_matches query_words searchable_text in
  if (0 <? matches)%nat
  then [ mkHit cat subcat subcategory_data (ratio matches (length query_words)) ]
  else [].

(** [results] when both loops are over. *)
Definition collect (query : string) : list SearchHit :=
  let query_lower := PyStr.lower query in
  flat_map (fun c : string * list (string * json) =>
              flat_map (scan_entry query_lower (fst c)) (snd c)) kb.

(** [search_information(query)] *)
Definition search_information (query : string) : list SearchHit :=
  firstn 5 (sort_desc relevance_score (collect query)).

End WithStore.
End CollegeKnowledgeBase.

(** ** Exceptions *)

(** An operation that returns a value or raises; [Raise] carries [str(e)]. *)
Inductive exc (A : Type) : Type :=
| Ok (a : A)
| Raise (e : string).
Arguments Ok {A} a.
Arguments Raise {A} e.

(** An argument that Python does not type: the values a caller can pass
    where the code expects a [str]. *)
Inductive pyval : Type :=
| PyNone
| PyInt (z : Z)
| PyStr (s : string).

Definition type_name (v : pyval) : string :=
  match v with
  | PyNone => "NoneType"
  | PyInt _ => "int"
  | PyStr _ => "str"
  end.

(** [v.lower()]: defined on [str], an [AttributeError] on the rest. *)
Definition py_lower (v : pyval) : exc string :=
  match v with
  | PyStr s => Ok (PyStr.lower s)
  | _ => Raise ("'" ++ type_name v ++ "' object has no attribute 'lower'")
  end.

(** ** Regular expressions of the intent patterns

    The patterns use literals, grouping and [|] only. *)
Inductive regex : Type :=
| RLit (w : string)
| RAlt (a b : regex)
| RSeq (a b : regex).

Module Re.

Fixpoint drop (n : nat) (s : string) : string :=
  match n, s with
  | O, _ => s
  | S n', String _ s' => drop n' s'
  | S _, EmptyString => EmptyString
  end.

(** What is left of [s] after each way of matching [r] at its start. *)
Fixpoint match_at (r : regex) (s : string) : list string :=
  match r with
  | RLit w => if String.prefix w s then [drop (String.length w) s] else []
  | RAlt a b => (match_at a s ++ match_at b s)%list
  | RSeq a b => flat_map (match_at b) (match_at a s)
  end.

(** [re.search(r, s)] as a truth value: [r] matches at some position. *)
Fixpoint search (r : regex) (s : string) : bool :=
  match match_at r s with
  | _ :: _ => true
  | [] => match s with
          | EmptyString => false
          | String _ s' => search r s'
          end
  end.

End Re.

(** ** The intent classifier: [CollegeIntentClassifier] *)

Record IntentData : Type := mkIntent {
  keywords : list string;
  patterns : list regex;
  weight : Z
}.

(** [self.college_intents], in the order of the literal. *)
Definition college_intents : list (string * IntentData) :=
  [ ("admission_inquiry", mkIntent
       ["admission"; "apply"; "entrance"; "eligibility"; "requirements"; "form"; "application"]
       [ RSeq (RLit "how to ") (RAlt (RLit "apply") (RLit "get admission"));
         RSeq (RLit "admission ") (RAlt (RLit "process") (RLit "procedure"));
         RLit "entrance exam" ]
       3);
    ("fee_inquiry", mkIntent
       ["fee"; "cost"; "price"; "payment"; "scholarship"; "installment"; "tuition"]
       [ RSeq (RLit "how much ") (RAlt (RLit "does it cost") (RLit "fees"));
         RLit "fee structure";
         RLit "total cost" ]
       3);
    ("course_information", mkIntent
       ["course"; "program"; "degree"; "subjects"; "curriculum"; "syllabus"; "duration"]
       [ RLit "what courses"; RLit "available programs"; RLit "course details" ]
       3);
    ("placement_inquiry", mkIntent
       ["placement"; "job"; "career"; "salary"; "companies"; "recruitment"; "internship"]
       [ RSeq (RLit "placement ") (RAlt (RLit "record") (RLit "statistics"));
         RLit "job opportunities";
         RLit "career prospects" ]
       3);
    ("hostel_accommodation", mkIntent
       ["hostel"; "accommodation"; "room"; "mess"; "residence"; "boarding"]
       [ RSeq (RLit "hostel ") (RAlt (RLit "facilities") (RLit "booking"));
         RLit "accommodation available";
         RLit "room allocation" ]
       2);
    ("faculty_information", mkIntent
       ["faculty"; "professor"; "teacher"; "staff"; "instructor"; "qualification"]
       [ RSeq (RLit "faculty ") (RAlt (RLit "details") (RLit "information"));
         RLit "about professors";
         RLit "teaching staff" ]
       2);
    ("campus_facilities", mkIntent
       ["library"; "lab"; "sports"; "canteen"; "wifi"; "transport"; "medical"]
       [ RLit "campus facilities"; RLit "library timings"; RLit "sports complex" ]
       2);
    ("academic_schedule", mkIntent
       ["timetable"; "schedule"; "exam"; "result"; "calendar"; "semester"]
       [ RSeq (RLit "class ") (RAlt (RLit "schedule") (RLit "timetable"));
         RSeq (RLit "exam ") (RAlt (RLit "dates") (RLit "schedule"));
         RLit "academic calendar" ]
       2) ].

(** The dictionary [classify_intent] returns; the [except] branch sets
    [error] and no [all_scores], the other branches the converse. *)
Record Classification : Type := mkCls {
  intent : string;
  confidence : Q;
  all_scores : option (list (string * Q));
  cls_error : option string;
  is_college_related : bool
}.

Module CollegeIntentClassifier.

(** The score of one intent: [weight] for each keyword found, then
    [weight * 1.5] for each pattern found. *)
Definition score_intent (intent_data : IntentData) (text_lower : string) : Q :=
  let score :=
    fold_left (fun score keyword =>
                 if PyStr.str_in keyword text_lower
                 then score + inject_Z (weight intent_data) else score)
              (keywords intent_data) 0 in
  fold_left (fun score pattern =>
               if Re.search pattern text_lower
               then score + inject_Z (weight intent_data) * (3 # 2) else score)
            (patterns intent_data) score.

(** [intent_scores] when the loop is over. *)
Definition intent_scores (text_lower : string) : list (string * Q) :=
  map (fun e : string * IntentData => (fst e, score_intent (snd e) text_lower))
      college_intents.

(** [max(items, key=lambda x: x[1])]: the first item of greatest score;
    [None] for no item. *)
Definition max_item (items : list (string * Q)) : option (string * Q) :=
  fold_left (fun best item =>
               match best with
               | None => Some item
               | Some b => if Qltb (snd b) (snd item) then Some item else best
               end) items None.

Definition college_keywords : list string :=
  ["college"; "university"; "student"; "education"; "academic"].

(** The statements after the scoring loop, from [if intent_scores:] on. *)
Definition decide (text_lower : string) (scores : list (string * Q))
  : Classification :=
  let general :=
    if PyStr.any_in college_keywords text_lower
    then mkCls "general_college_inquiry" (1 # 2) (Some scores) None true
    else mkCls "unknown" 0 (Some scores) None false in
  match max_item scores with
  | Some top_intent =>
      let conf := Qmin (snd top_intent / 10) 1 in
      if Qle_bool (3 # 10) conf
      then mkCls (fst top_intent) conf (Some scores) None true
      else general
  | None => general
  end.

(** The body of the [try]. *)
Definition classify_body (text : pyval) : exc Classification :=
  match py_lower text with
  | Ok text_lower => Ok (decide text_lower (intent_scores text_lower))
  | Raise e => Raise e
  end.

(** [classify_intent(text)] *)
Definition classify_intent (text : pyval) : Classification :=
  match classify_body text with
  | Ok r => r
  | Raise e => mkCls "error" 0 None (Some e) false
  end.

End CollegeIntentClassifier.

(** ** The response generator: [CollegeResponseGenerator] *)

Definition bind {A B : Type} (c : exc A) (k : A -> exc B) : exc B :=
  match c with
  | Ok a => k a
  | Raise e => Raise e
  end.

Notation "x <- c ;; k" := (bind c (fun x => k))
  (at level 61, c at next level, right associativity).

(** The operations of Python the generator applies to values of the store.
    A handler that discards the exception makes the message immaterial; the
    model then carries the name of the exception. *)
Module PyVal.

Definition dq : string := String (ascii_of_nat 34) "".
Definition nl : string := String (ascii_of_nat 10) "".

(** [data[key]] for a string [key] *)
Definition subscript (v : json) (key : string) : exc json :=
  match v with
  | JDict d => match Dict.get key d with
               | Some x => Ok x
               | None => Raise "KeyError"
               end
  | _ => Raise "TypeError"
  end.

Definition repr_char (quote c : ascii) : string :=
  let n := nat_of_ascii c in
  if (n =? 92)%nat then "\\"
  else if Ascii.eqb c quote then String (ascii_of_nat 92) (String c "")
  else if (n =? 10)%nat then "\n"
  else if (n =? 13)%nat then "\r"
  else if (n =? 9)%nat then "\t"
  else if (n <? 32)%nat || (n =? 127)%nat
       then "\x" ++ String (Json.hex_digit (n / 16))
                           (String (Json.hex_digit (n mod 16)) "")
  else String c "".

Fixpoint repr_chars (quote : ascii) (s : string) : string :=
  match s with
  | EmptyString => EmptyString
  | String c s' => repr_char quote c ++ repr_chars quote s'
  end.

(** [repr(s)] for a [str]: single quotes, unless [s] holds a single quote
    and no double quote. *)
Definition repr_str (s : string) : string :=
  let quote := if PyStr.str_in "'" s && negb (PyStr.str_in dq s)
               then ascii_of_nat 34 else ascii_of_nat 39 in
  String quote (repr_chars quote s ++ String quote "").

Fixpoint repr (v : json) : string :=
  match v with
  | JInt z => PyStr.of_int z
  | JStr s => repr_str s
  | JList l =>
      "[" ++ (fix items (l : list json) : string :=
                match l with
                | [] => ""
                | x :: l' => match l' with
                             | [] => repr x
                             | _ :: _ => repr x ++ ", " ++ items l'
                             end
                end) l ++ "]"
  | JDict d =>
      "{" ++ (fix members (d : list (string * json)) : string :=
                match d with
                | [] => ""
                | (k, x) :: d' =>
                    match d' with
                    | [] => repr_str k ++ ": " ++ repr x
                    | _ :: _ => repr_str k ++ ": " ++ repr x ++ ", " ++ members d'
                    end
                end) d ++ "}"
  end.

(** [str(v)], which is also how [format] and an f-string render [v]. *)
Definition str (v : json) : string :=
  match v with
  | JStr s => s
  | _ => repr v
  end.

Fixpoint chars (s : string) : list json :=
  match s with
  | EmptyString => []
  | String c s' => JStr (String c "") :: chars s'
  end.

(** The items [for x in v] runs over. *)
Definition iter (v : json) : exc (list json) :=
  match v with
  | JList l => Ok l
  | JStr s => Ok (chars s)
  | JDict d => Ok (map JStr (Dict.keys d))
  | JInt _ => Raise "TypeError"
  end.

(** [v[:n]] *)
Definition slice (n : nat) (v : json) : exc json :=
  match v with
  | JList l => Ok (JList (firstn n l))
  | JStr s => Ok (JStr (String.substring 0 n s))
  | _ => Raise "TypeError"
  end.

Fixpoint all_str (l : list json) : exc (list string) :=
  match l with
  | [] => Ok []
  | JStr s :: l' => r <- all_str l' ;; Ok (s :: r)
  | _ :: _ => Raise "TypeError"
  end.

(** [', '.join(v)]: every item has to be a [str]. *)
Definition join_comma (v : json) : exc string :=
  items <- iter v ;;
  l <- all_str items ;;
  Ok (PyStr.join ", " l).

(** ['\n'.join(f"• {x}" for x in v)] *)
Definition bullets (v : json) : exc string :=
  items <- iter v ;;
  Ok (PyStr.join nl (map (fun x => "• " ++ str x) items)).

End PyVal.

Module CollegeResponseGenerator.
Import PyVal.

(** [self.response_templates[...].format(...)], one function for each
    template, its arguments the fields already rendered. *)
Definition admission_inquiry_template
  (application_period entrance_exam selection_criteria documents : string) : string :=
  "
🎓 **Admission Information:**

**Application Period:** " ++ application_period ++ "
**Entrance Exam:** " ++ entrance_exam ++ "
**Selection Process:** " ++ selection_criteria ++ "

**Required Documents:**
" ++ documents ++ "

**Next Steps:**
1. Fill online application form
2. Pay application fee
3. Take entrance exam
4. Attend counseling (if selected)

📞 **Contact:** admissions@college.edu | 0123-456-7890
            ".

Definition course_information_template
  (course_name duration specializations eligibility fee_range career_options : string)
  : string :=
  "
📚 **" ++ course_name ++ " Details:**

**Duration:** " ++ duration ++ "
**Specializations Available:**
" ++ specializations ++ "

**Eligibility:** " ++ eligibility ++ "
**Fee Range:** " ++ fee_range ++ "

**Career Opportunities:**
" ++ career_options ++ "

**Would you like more details about any specific specialization?**
            ".

Definition fee_inquiry_template (course fee_range : string) : string :=
  "
💰 **Fee Structure for " ++ course ++ ":**

**Annual Fees:** " ++ fee_range ++ "
**Additional Costs:**
• Hostel: Rs. 4,500-8,000/month
• Mess: Rs. 3,500/month
• Books & Materials: Rs. 10,000/year

**Payment Options:**
• Annual payment (5% discount)
• Semester-wise payment
• EMI facility available

**Scholarships Available:**
• Merit-based scholarships up to 50%
• Need-based financial assistance
• Government scholarships for eligible categories
            ".

Definition placement_inquiry_template
  (overall_percentage average_package highest_package top_recruiters placement_process
     : string) : string :=
  "
📈 **Placement Statistics:**

**Placement Rate:** " ++ overall_percentage ++ "%
**Average Package:** Rs. " ++ average_package ++ "
**Highest Package:** Rs. " ++ highest_package ++ "

**Top Recruiters:**
" ++ top_recruiters ++ "

**Placement Process:**
" ++ placement_process ++ "

**Industry Connections:**
• Regular industry visits
• Guest lectures by professionals  
• Internship opportunities
• Skill development workshops
            ".

(** The f-string of [_generate_hostel_response]. *)
Definition hostel_text
  (capacity room_types facilities_list fees mess_charges : string) : string :=
  "
🏠 **Hostel Accommodation:**

**Capacity:** " ++ capacity ++ "
**Room Types:** " ++ room_types ++ "

**Facilities:**
" ++ facilities_list ++ "

**Fees:**
• Accommodation: " ++ fees ++ "
• Mess charges: " ++ mess_charges ++ "

**Booking Process:**
1. Complete admission formalities
2. Submit hostel application
3. Pay hostel fees and security deposit
4. Get room allocation

📞 **Contact Hostel Office:** hostel@college.edu
            ".

(** The f-string of [_generate_facilities_response]. *)
Definition facilities_text
  (books digital timings computer_labs specialized_labs access_hours capacity
     room_types : string) : string :=
  "
🏫 **Campus Facilities:**

**📚 Library:**
• " ++ books ++ "
• Digital access: " ++ digital ++ "
• Timings: " ++ timings ++ "

**💻 Computer Labs:**
• " ++ computer_labs ++ "
• Specialized labs: " ++ specialized_labs ++ "
• Access: " ++ access_hours ++ "

**🏠 Hostel:**
• Capacity: " ++ capacity ++ "
• Types: " ++ room_types ++ "

**Additional Facilities:**
• Sports complex with gym
• Medical center
• Cafeteria and mess
• Transportation
• Wi-Fi campus
            ".

(** [_generate_default_response()] *)
Definition _generate_default_response : string :=
  "
🎓 **I'm here to help with college information!**

**Popular topics I can assist with:**
• 📝 Admissions and eligibility criteria
• 💰 Fee structure and scholarships
• 📚 Available courses and specializations
• 🏢 Placement statistics and career prospects
• 🏠 Hostel accommodation and facilities
• 🏫 Campus facilities and infrastructure
• 📅 Academic calendar and schedules

**Try asking me:**
• " ++ dq ++ "What are the admission requirements for B.Tech?" ++ dq ++ "
• " ++ dq ++ "Tell me about MBA fees and scholarships" ++ dq ++ "
• " ++ dq ++ "How is the placement record?" ++ dq ++ "
• " ++ dq ++ "What hostel facilities are available?" ++ dq ++ "

**Need immediate help?** Contact our office:
📞 Phone: 0123-456-7890
📧 Email: info@college.edu
        ".

(** The three lists of terms of [_extract_course_from_query]. *)
Definition btech_terms : list string := ["btech"; "b.tech"; "bachelor"; "engineering"].
Definition mtech_terms : list string := ["mtech"; "m.tech"; "master"; "technology"].
Definition mba_terms : list string := ["mba"; "management"; "business"].

(** [_extract_course_from_query(query)] *)
Definition _extract_course_from_query (query : string) : string :=
  let query_lower := PyStr.lower query in
  if PyStr.any_in btech_terms query_lower then "btech"
  else if PyStr.any_in mtech_terms query_lower then "mtech"
  else if PyStr.any_in mba_terms query_lower then "mba"
  else "btech".

Section WithStore.
Variable kb : Store.

(** [info['data']] of a result of [get_information] *)
Definition data_of (info : InfoResult) : exc json :=
  match data info with
  | Some d => Ok d
  | None => Raise "KeyError"
  end.

Definition _generate_admission_response : exc string :=
  let admission_info :=
    CollegeKnowledgeBase.get_information kb "admission_process" None in
  if success admission_info then
    data <- data_of admission_info ;;
    docs <- subscript data "documents_required" ;;
    documents_list <- bullets docs ;;
    application_period <- subscript data "application_period" ;;
    entrance_exam <- subscript data "entrance_exam" ;;
    selection_criteria <- subscript data "selection_criteria" ;;
    Ok (admission_inquiry_template (str application_period) (str entrance_exam)
          (str selection_criteria) documents_list)
  else Ok "Please contact our admissions office for detailed admission information.".

Definition _generate_course_response (course : string) : exc string :=
  let course_info :=
    CollegeKnowledgeBase.get_information kb "courses" (Some course) in
  if success course_info then
    data <- data_of course_info ;;
    specs <- subscript data "specializations" ;;
    specializations_list <- bullets specs ;;
    careers <- subscript data "career_options" ;;
    career_list <- bullets careers ;;
    full_name <- subscript data "full_name" ;;
    duration <- subscript data "duration" ;;
    eligibility <- subscript data "eligibility" ;;
    fee_range <- subscript data "fee_range" ;;
    Ok (course_information_template (str full_name) (str duration)
          specializations_list (str eligibility) (str fee_range) career_list)
  else Ok ("I don't have detailed information about " ++ course ++
           ". Please contact our academic office for specific course details.").

Definition _generate_fee_response (course : string) : exc string :=
  let course_info :=
    CollegeKnowledgeBase.get_information kb "courses" (Some course) in
  if success course_info then
    data <- data_of course_info ;;
    full_name <- subscript data "full_name" ;;
    fee_range <- subscript data "fee_range" ;;
    Ok (fee_inquiry_template (str full_name) (str fee_range))
  else Ok "Please contact our accounts office for detailed fee information.".

Definition _generate_placement_response : exc string :=
  let placement_info :=
    CollegeKnowledgeBase.get_information kb "placement_stats" None in
  if success placement_info then
    data <- data_of placement_info ;;
    recruiters <- subscript data "top_recruiters" ;;
    first5 <- slice 5 recruiters ;;
    recruiters_list <- bullets first5 ;;
    process <- subscript data "placement_process" ;;
    process_list <- bullets process ;;
    overall_percentage <- subscript data "overall_percentage" ;;
    average_package <- subscript data "average_package" ;;
    highest_package <- subscript data "highest_package" ;;
    Ok (placement_inquiry_template (str overall_percentage) (str average_package)
          (str highest_package) recruiters_list process_list)
  else Ok "Please contact our placement cell for current placement statistics.".

Definition _generate_hostel_response : exc string :=
  let hostel_info :=
    CollegeKnowledgeBase.get_information kb "facilities" (Some "hostel") in
  if success hostel_info then
    data <- data_of hostel_info ;;
    facilities <- subscript data "facilities" ;;
    facilities_list <- bullets facilities ;;
    capacity <- subscript data "capacity" ;;
    types <- subscript data "room_types" ;;
    room_types <- join_comma types ;;
    fees <- subscript data "fees" ;;
    mess_charges <- subscript data "mess_charges" ;;
    Ok (hostel_text (str capacity) room_types facilities_list (str fees)
          (str mess_charges))
  else Ok "Please contact the hostel office for accommodation details.".

Definition _generate_facilities_response : exc string :=
  let facilities_info :=
    CollegeKnowledgeBase.get_information kb "facilities" None in
  if success facilities_info then
    data <- data_of facilities_info ;;
    library <- subscript data "library" ;;
    books <- subscript library "books" ;;
    digital <- subscript library "digital" ;;
    timings <- subscript library "timings" ;;
    labs <- subscript data "labs" ;;
    computer_labs <- subscript labs "computer_labs" ;;
    labs_list <- subscript labs "specialized_labs" ;;
    specialized_labs <- join_comma labs_list ;;
    access_hours <- subscript labs "access_hours" ;;
    hostel <- subscript data "hostel" ;;
    capacity <- subscript hostel "capacity" ;;
    types <- subscript hostel "room_types" ;;
    room_types <- join_comma types ;;
    Ok (facilities_text (str books) (str digital) (str timings) (str computer_labs)
          specialized_labs (str access_hours) (str capacity) room_types)
  else Ok "Please visit our campus to see all the facilities we offer.".

(** One line of the search-based response: a field of a hit. *)
Definition field_line (item : string * json) : string :=
  let '(key, value) := item in
  let value :=
    match value with
    | JList l => PyStr.join ", " (map str (firstn 3 l))
    | _ => str value
    end in
  "• " ++ PyStr.title (PyStr.replace_char "_"%char " "%char key) ++ ": "
       ++ value ++ nl.

(** The text the loop adds for the hit numbered [i]. *)
Definition hit_block (i : Z) (result : SearchHit) : string :=
  "**" ++ PyStr.of_int i ++ ". " ++ PyStr.title (hit_category result) ++ ":**" ++ nl
  ++ match hit_data result with
     | JDict d => String.concat "" (map field_line d)
     | _ => ""
     end
  ++ nl.

Fixpoint hit_blocks (i : Z) (results : list SearchHit) : string :=
  match results with
  | [] => ""
  | r :: results' => hit_block i r ++ hit_blocks (i + 1) results'
  end.

Definition _generate_search_based_response
  (search_results : list SearchHit) (query : string) : string :=
  "Here's what I found related to '" ++ query ++ "':" ++ nl ++ nl
  ++ hit_blocks 1 (firstn 3 search_results)
  ++ "Would you like more specific information about any of these topics?".

(** The body of the [try] of [generate_response]. *)
Definition generate_body (intent query : string) : exc string :=
  if String.eqb intent "admission_inquiry" then _generate_admission_response
  else if String.eqb intent "course_information" then
    _generate_course_response (_extract_course_from_query query)
  else if String.eqb intent "fee_inquiry" then
    _generate_fee_response (_extract_course_from_query query)
  else if String.eqb intent "placement_inquiry" then _generate_placement_response
  else if String.eqb intent "hostel_accommodation" then _generate_hostel_response
  else if String.eqb intent "campus_facilities" then _generate_facilities_response
  else
    match CollegeKnowledgeBase.search_information kb query with
    | [] => Ok _generate_default_response
    | search_results => Ok (_generate_search_based_response search_results query)
    end.

(** [generate_response(intent, query)] *)
Definition generate_response (intent query : string) : string :=
  match generate_body intent query with
  | Ok response => response
  | Raise _ =>
      "I apologize, but I'm having trouble processing your request right now. Please try asking about specific topics like admissions, courses, fees, or placements."
  end.

End WithStore.
End CollegeResponseGenerator.

(** ** The collaborators outside the process *)

(** The metadata the route sends along with a message. *)
Record Metadata : Type := mkMeta {
  meta_language : string;
  meta_input_type : option string;
  meta_user_id : option string;
  meta_college_intent : string
}.

(** The JSON body of the request to the dialogue engine. *)
Record Payload : Type := mkPayload {
  sender : string;
  payload_message : string;
  payload_metadata : option Metadata
}.

(** One message of the engine's answer; a key that is absent is [None]. *)
Record EngineIntent : Type := mkEngineIntent {
  name : option string;
  engine_confidence : option Q
}.

Record EngineMessage : Type := mkEngineMessage {
  text : option string;
  engine_intent : option EngineIntent
}.

(** What [requests.post] does: it raises (the engine cannot be reached, or
    the call times out), or it returns a response with a status code whose
    [json()] is a list of messages or raises. *)
Inductive PostOutcome : Type :=
| PostRaises (e : string)
| PostReturns (status_code : Z) (body : exc (list EngineMessage)).

(** Everything the pipeline reads from outside: the translator, the HTTP
    client, the session table, the UUID generator and the clock. *)
Record World : Type := mkWorld {
  translator_detect : string -> exc string;
  translator_translate : string -> string -> string -> exc string;
  requests_post : string -> Payload -> PostOutcome;
  session_exists : string -> bool;
  uuid4 : string;
  elapsed_ms : Z
}.

(** *** [LanguageService] *)
Module LanguageService.
Section WithWorld.
Variable w : World.

Definition supported_languages : list string :=
  ["en"; "hi"; "ta"; "te"; "ml"; "kn"; "bn"].

Definition detect_language (text : string) : string :=
  match translator_detect w text with
  | Ok lang =>
      if existsb (String.eqb lang) supported_languages then lang else "en"
  | Raise _ => "en"
  end.

Definition translate_for_rasa (text source_lang : string) : string :=
  if String.eqb source_lang "en" then text
  else match translator_translate w text source_lang "en" with
       | Ok result => result
       | Raise _ => text
       end.

Definition translate_from_rasa (text target_lang : string) : string :=
  if String.eqb target_lang "en" then text
  else match translator_translate w text "en" target_lang with
       | Ok result => result
       | Raise _ => text
       end.
End WithWorld.
End LanguageService.

(** *** [RasaService] *)

(** The dictionary [RasaService.send_message] returns. *)
Record RasaResult : Type := mkRasa {
  r_success : bool;
  r_message : option string;
  r_intent : option string;
  r_confidence : option Q;
  r_error : option string
}.

Module RasaService.

Definition rasa_url : string := "http://localhost:5005".
Definition webhook_endpoint : string := rasa_url ++ "/webhooks/rest/webhook".

(** [{'success': False, 'error': e}] *)
Definition failure (e : string) : RasaResult :=
  mkRasa false None None None (Some e).

Section WithWorld.
Variable w : World.

(** [send_message(message, sender_id, metadata=None)] *)
Definition send_message (message sender_id : string) (metadata : option Metadata)
  : RasaResult :=
  let payload := mkPayload sender_id message metadata in
  match requests_post w webhook_endpoint payload with
  | PostRaises e => failure e
  | PostReturns status_code body =>
      if (status_code =? 200)%Z then
        match body with
        | Raise e => failure e
        | Ok (first :: _) =>
            mkRasa true
              (Some (match text first with Some t => t | None => "No response" end))
              (match engine_intent first with Some i => name i | None => None end)
              (match engine_intent first with
               | Some i => engine_confidence i
               | None => None
               end)
              None
        | Ok [] => failure ("HTTP " ++ PyStr.of_int status_code)
        end
      else failure ("HTTP " ++ PyStr.of_int status_code)
  end.
End WithWorld.
End RasaService.

(** ** The route [/message]: [send_message] of [chat_routes.py] *)

(** A field of the request's JSON object. *)
Inductive field (A : Type) : Type :=
| Absent
| Null
| Val (a : A).
Arguments Absent {A}.
Arguments Null {A}.
Arguments Val {A} a.

Record RequestData : Type := mkRequest {
  req_message : field string;
  req_session_id : field string;
  req_user_id : field string;
  req_language : field string;
  req_input_type : field string
}.

Record RestrictedResponse : Type := mkRestricted {
  rs_success : bool;
  rs_message : string;
  rs_session_id : string;
  rs_language : string;
  rs_input_type : option string;
  rs_intent : string;
  rs_restricted : bool
}.

Record ChatResponse : Type := mkChat {
  cr_success : bool;
  cr_message : string;
  cr_session_id : string;
  cr_language : string;
  cr_detected_language : string;
  cr_input_type : option string;
  cr_intent : option string;
  cr_confidence : option Q;
  cr_response_time_ms : Z;
  cr_response_source : string;
  cr_college_intent : string;
  cr_college_confidence : Q
}.

(** The four shapes of the route's answer, with their status codes. *)
Inductive Response : Type :=
| BadRequest (error : string)                 (* 400 *)
| RestrictedReply (r : RestrictedResponse)    (* 200 *)
| ChatReply (c : ChatResponse)                (* 200 *)
| ServerError (error message : string).       (* 500 *)

(** The rows the route adds to the database session. *)
Inductive Row : Type :=
| ChatSessionRow (id : string) (user_id : option string) (language : string)
| UserMessageRow (session_id message_text : string)
| BotMessageRow (session_id message_text : string)
| AnalyticsRow (session_id response_source : string).

(** The calls the route makes, in the order it makes them.  The writes to
    the database are recorded and taken to succeed. *)
Inductive Event : Type :=
| CallDetectLanguage (text : string)
| CallClassifyIntent (text : string)
| CallTranslateForRasa (text source_lang : string)
| CallTranslateFromRasa (text target_lang : string)
| CallGenerateResponse (intent query : string)
| CallDefaultResponse
| CallRasa (message sender_id : string) (metadata : option Metadata)
| DbQuerySession (id : string)
| DbAdd (row : Row)
| DbTouchSession (id : string)
| DbCommit
| DbRollback.

(** A computation of the route: it reads the trace so far and returns a
    value or raises, with the trace extended by the calls it made. *)
Definition M (A : Type) : Type := list Event -> exc A * list Event.

Definition ret {A : Type} (a : A) : M A := fun t => (Ok a, t).

Definition raise {A : Type} (e : string) : M A := fun t => (Raise e, t).

Definition bindM {A B : Type} (m : M A) (k : A -> M B) : M B :=
  fun t => match m t with
           | (Ok a, t') => k a t'
           | (Raise e, t') => (Raise e, t')
           end.

(** A call that returns [a], recorded as [ev]. *)
Definition call {A : Type} (ev : Event) (a : A) : M A :=
  fun t => (Ok a, (t ++ [ev])%list).

(** [try: body except Exception as e: handler e] *)
Definition try_except {A : Type} (body : M A) (handler : string -> M A) : M A :=
  fun t => match body t with
           | (Raise e, t') => handler e t'
           | r => r
           end.

Notation "x <~ c ;; k" := (bindM c (fun x => k))
  (at level 61, c at next level, right associativity).
Notation "c ;;; k" := (bindM c (fun _ => k))
  (at level 61, right associativity).

Module ChatRoutes.
Import PyVal.

Definition restricted_response : string :=
  "I'm Edumate, your college assistant! I can help you with:

🎓 Admissions and eligibility
💰 Fee structure and scholarships
📚 Available courses and programs
🏢 Placement statistics and careers
🏠 Hostel and campus facilities

Please ask me about college-related topics!".

Definition error_fallback_text : string :=
  "I apologize, but I'm having trouble understanding your question. Could you please try asking about specific college topics like admissions, courses, or facilities?".

Definition server_error_message : string :=
  "I apologize for the technical difficulty. Please try asking about college admissions, courses, fees, or facilities.".

(** [data.get(key)]: [None] for a key that is absent or null. *)
Definition get {A : Type} (f : field A) : option A :=
  match f with
  | Val a => Some a
  | _ => None
  end.

(** [data.get(key, default)] *)
Definition get_default {A : Type} (f : field A) (default : A) : option A :=
  match f with
  | Val a => Some a
  | Null => None
  | Absent => Some default
  end.

(** [x or y] for an optional string [x]. *)
Definition or_str (x : option string) (y : string) : string :=
  match x with
  | Some s => if String.eqb s "" then y else s
  | None => y
  end.

(** [x or y] for an optional number [x]. *)
Definition or_num (x : option Q) (y : Q) : Q :=
  match x with
  | Some q => if Qeq_bool q 0 then y else q
  | None => y
  end.

(** What the route chose to answer: text, intent, confidence, source. *)
Record Answer : Type := mkAnswer {
  bot_response_text : string;
  answer_intent : option string;
  answer_confidence : option Q;
  response_source : string
}.

Section WithWorld.
Variable w : World.

(** [session_id] once the route has filled it in. *)
Definition session_of (data : RequestData) : string :=
  or_str (get (req_session_id data)) (uuid4 w).

(** [preferred_language] once the route has resolved it. *)
Definition language_of (data : RequestData) (detected_language : string) : string :=
  match get_default (req_language data) "en" with
  | Some l => if String.eqb l "" || String.eqb l "auto" then detected_language else l
  | None => detected_language
  end.

Definition input_type_of (data : RequestData) : option string :=
  get_default (req_input_type data) "text".

(** The branch taken when the message is not about the college. *)
Definition restricted (data : RequestData) (preferred_language : string)
  : M Response :=
  let session_id := session_of data in
  let input_type := input_type_of data in
  response <~ (if negb (String.eqb preferred_language "en")
               then call (CallTranslateFromRasa restricted_response preferred_language)
                      (LanguageService.translate_from_rasa w restricted_response
                         preferred_language)
               else ret restricted_response) ;;
  call (DbAdd (BotMessageRow session_id response)) tt ;;;
  call DbCommit tt ;;;
  ret (RestrictedReply
         (mkRestricted true response session_id preferred_language input_type
            "non_college_topic" true)).

(** The body of the inner [try]. *)
Definition answer_body (data : RequestData) (message_text detected_language : string)
  (intent_result : Classification) : M Answer :=
  let session_id := session_of data in
  if Qle_bool (7 # 10) (confidence intent_result) then
    college_response <~
      call (CallGenerateResponse (intent intent_result) message_text)
        (CollegeResponseGenerator.generate_response knowledge_base
           (intent intent_result) message_text) ;;
    ret (mkAnswer college_response (Some (intent intent_result))
           (Some (confidence intent_result)) "college_ai")
  else
    rasa_message <~
      call (CallTranslateForRasa message_text detected_language)
        (LanguageService.translate_for_rasa w message_text detected_language) ;;
    let metadata :=
      mkMeta detected_language (input_type_of data) (get (req_user_id data))
        (intent intent_result) in
    rasa_response <~
      call (CallRasa rasa_message session_id (Some metadata))
        (RasaService.send_message w rasa_message session_id (Some metadata)) ;;
    if r_success rasa_response then
      match r_message rasa_response with
      | Some m =>
          ret (mkAnswer m
                 (Some (or_str (r_intent rasa_response) (intent intent_result)))
                 (Some (or_num (r_confidence rasa_response)
                          (confidence intent_result)))
                 "rasa")
      | None => raise "KeyError"
      end
    else
      default <~ call CallDefaultResponse
                   CollegeResponseGenerator._generate_default_response ;;
      ret (mkAnswer default (Some "fallback") (Some (1 # 2)) "college_ai_fallback").

(** The handler of the inner [try]. *)
Definition answer_handler (data : RequestData) (message_text detected_language : string)
  : M Answer :=
  let session_id := session_of data in
  rasa_message <~
    call (CallTranslateForRasa message_text detected_language)
      (LanguageService.translate_for_rasa w message_text detected_language) ;;
  rasa_response <~
    call (CallRasa rasa_message session_id None)
      (RasaService.send_message w rasa_message session_id None) ;;
  if r_success rasa_response then
    match r_message rasa_response with
    | Some m =>
        ret (mkAnswer m (r_intent rasa_response) (r_confidence rasa_response)
               "rasa_fallback")
    | None => raise "KeyError"
    end
  else ret (mkAnswer error_fallback_text (Some "error") (Some 0) "error_fallback").

(** The statements from [STEP 2] on: choose the answer, translate it,
    store it and return it. *)
Definition chat_reply (data : RequestData)
  (message_text detected_language preferred_language : string)
  (intent_result : Classification) : M Response :=
  let session_id := session_of data in
  let input_type := input_type_of data in
  answer <~
    try_except
      (answer_body data message_text detected_language intent_result)
      (fun _ => answer_handler data message_text detected_language) ;;
  let response_time := elapsed_ms w in
  response <~
    (if negb (String.eqb preferred_language "en")
     then call (CallTranslateFromRasa (bot_response_text answer) preferred_language)
            (LanguageService.translate_from_rasa w (bot_response_text answer)
               preferred_language)
     else ret (bot_response_text answer)) ;;
  call (DbAdd (BotMessageRow session_id response)) tt ;;;
  call (DbTouchSession session_id) tt ;;;
  call (DbAdd (AnalyticsRow session_id (response_source answer))) tt ;;;
  call DbCommit tt ;;;
  ret (ChatReply
         (mkChat true response session_id preferred_language detected_language
            input_type (answer_intent answer) (answer_confidence answer)
            response_time (response_source answer) (intent intent_result)
            (confidence intent_result))).

(** The statements of the outer [try], from the validation to the
    gate on [is_college_related]. *)
Definition route_body (request_json : option RequestData) : M Response :=
  match request_json with
  | None => ret (BadRequest "Message is required")
  | Some data =>
      match req_message data with
      | Absent => ret (BadRequest "Message is required")
      | Null => raise "'NoneType' object has no attribute 'strip'"
      | Val m =>
          let message_text := PyStr.strip m in
          if String.eqb message_text "" then ret (BadRequest "Message cannot be empty")
          else
            let user_id := get (req_user_id data) in
            detected_language <~
              call (CallDetectLanguage message_text)
                (LanguageService.detect_language w message_text) ;;
            let preferred_language := language_of data detected_language in
            let session_id := session_of data in
            known <~ call (DbQuerySession session_id) (session_exists w session_id) ;;
            (if known then ret tt
             else call (DbAdd (ChatSessionRow session_id user_id preferred_language))
                    tt) ;;;
            call (DbAdd (UserMessageRow session_id message_text)) tt ;;;
            intent_result <~
              call (CallClassifyIntent message_text)
                (CollegeIntentClassifier.classify_intent (PyStr message_text)) ;;
            if negb (is_college_related intent_result)
            then restricted data preferred_language
            else chat_reply data message_text detected_language preferred_language
                   intent_result
      end
  end.

(** [send_message()]: the outer [try] with its handler, which rolls the
    database session back and answers with status 500.  The result is the
    answer and the calls made. *)
Definition send_message (request_json : option RequestData)
  : Response * list Event :=
  match route_body request_json [] with
  | (Ok response, t) => (response, t)
  | (Raise _, t) =>
      (ServerError "Internal server error" server_error_message,
       (t ++ [DbRollback])%list)
  end.

End WithWorld.
End ChatRoutes.

(** ** The other routes of [chat_routes.py] *)

(** [len(s)]: the number of characters of [s], which in UTF-8 is the number
    of bytes that do not continue a character (those not of the form
    10xxxxxx). *)
Fixpoint py_len (s : string) : nat :=
  match s with
  | EmptyString => 0
  | String c s' =>
      if (nat_of_ascii c / 64 =? 2)%nat then py_len s' else S (py_len s')
  end.

Module CollegeRoutes.

Definition popular_suggestions : list string :=
  [ "What are the admission requirements?";
    "Tell me about B.Tech courses";
    "What is the fee structure?";
    "How is the placement record?";
    "What hostel facilities are available?";
    "Tell me about campus facilities";
    "When do admissions open?";
    "What scholarships are available?" ].

Definition admission_suggestions : list string :=
  [ "What are the admission requirements for B.Tech?";
    "How to apply for MBA admission?";
    "When do admissions open?";
    "What documents are required for admission?";
    "What is the admission process?" ].

Definition fee_suggestions : list string :=
  [ "What is the fee structure for B.Tech?";
    "Are there any scholarships available?";
    "What are the hostel fees?";
    "Can I pay fees in installments?";
    "What is the total cost of MBA?" ].

Definition course_suggestions : list string :=
  [ "What courses are available?";
    "Tell me about B.Tech specializations";
    "What is the duration of MBA program?";
    "What subjects are taught in CSE?";
    "Which course is best for placements?" ].

Definition placement_suggestions : list string :=
  [ "What is the placement percentage?";
    "Which companies visit for recruitment?";
    "What is the average salary package?";
    "How is the placement record for CSE?";
    "Are internships provided?" ].

Definition fallback_suggestions : list string :=
  [ "What are the admission requirements?";
    "Tell me about available courses";
    "What is the fee structure?";
    "How are the placement statistics?" ].

(** [data.get('query', '').strip()] for the JSON body [data] of a request:
    [None] when the request has no JSON body, else the field [query] of the
    object. *)
Definition query_of (request_json : option (field string)) : exc string :=
  match request_json with
  | None => Raise "'NoneType' object has no attribute 'get'"
  | Some Absent => Ok (PyStr.strip "")
  | Some Null => Raise "'NoneType' object has no attribute 'strip'"
  | Some (Val q) => Ok (PyStr.strip q)
  end.

(** The answers of [/suggestions]. *)
Inductive SuggestionResponse : Type :=
| SuggestionList (suggestions : list string)      (* 200 *)
| SuggestionFailure (error : string).             (* 500 *)

(** The list [suggestions] that the body of the [try] builds. *)
Definition suggestions_for (request_json : option (field string))
  : exc (list string) :=
  partial_query <- query_of request_json ;;
  if (py_len partial_query <? 2)%nat then Ok popular_suggestions
  else
    let query_lower := PyStr.lower partial_query in
    if PyStr.any_in ["admission"; "apply"] query_lower then Ok admission_suggestions
    else if PyStr.any_in ["fee"; "cost"; "price"] query_lower then Ok fee_suggestions
    else if PyStr.any_in ["course"; "program"] query_lower then Ok course_suggestions
    else if PyStr.any_in ["placement"; "job"] query_lower then Ok placement_suggestions
    else Ok fallback_suggestions.

(** [get_query_suggestions()] *)
Definition get_query_suggestions (request_json : option (field string))
  : SuggestionResponse :=
  match suggestions_for request_json with
  | Ok suggestions => SuggestionList (firstn 5 suggestions)
  | Raise _ => SuggestionFailure "Failed to generate suggestions"
  end.

(** The answers of [/college-info/<category>]. *)
Inductive InfoResponse : Type :=
| InfoOk (category : string) (subcategory : option string) (data : json)   (* 200 *)
| InfoNotFound (error : string) (available_categories : list string)       (* 404 *)
| InfoFailure (error : string).                                            (* 500 *)

(** The answers of [/search]. *)
Inductive SearchResponse : Type :=
| SearchBadRequest (error : string)                                        (* 400 *)
| SearchOk (query : string) (results : list SearchHit) (result_count : nat) (* 200 *)
| SearchFailure (error : string).                                          (* 500 *)

Section WithStore.
Variable kb : Store.

(** [get_college_information(category)]; [subcategory] is
    [request.args.get('subcategory')].  A key that the result of
    [get_information] lacks is a [KeyError], which the [except] answers. *)
Definition get_college_information (category : string) (subcategory : option string)
  : InfoResponse :=
  let info_result := CollegeKnowledgeBase.get_information kb category subcategory in
  if success info_result then
    match data info_result with
    | Some d => InfoOk category subcategory d
    | None => InfoFailure "Failed to retrieve college information"
    end
  else
    match error info_result with
    | Some e =>
        InfoNotFound e (match available_categories info_result with
                        | Some l => l
                        | None => []
                        end)
    | None => InfoFailure "Failed to retrieve college information"
    end.

(** [search_college_information()] *)
Definition search_college_information (request_json : option (field string))
  : SearchResponse :=
  match query_of request_json with
  | Ok query =>
      if String.eqb query "" then SearchBadRequest "Search query is required"
      else
        let search_results := CollegeKnowledgeBase.search_information kb query in
        SearchOk query search_results (length search_results)
  | Raise _ => SearchFailure "Search failed"
  end.

End WithStore.
End CollegeRoutes.

(** ** The stand-alone backend: [app.py] *)

(** What [requests.post] does in [app.py], where the handlers tell a
    [ConnectionError] from any other exception. *)
Inductive AppPostOutcome : Type :=
| AppConnectionError
| AppRaises (e : string)
| AppReturns (status_code : Z) (body : exc (list EngineMessage)).

(** What [requests.get] does. *)
Inductive GetOutcome : Type :=
| GetRaises
| GetReturns (status_code : Z).

Record AppPayload : Type := mkAppPayload {
  app_sender : option string;
  app_payload_message : string
}.

(** What [app.py] reads from outside: the HTTP client and the clock. *)
Record AppWorld : Type := mkAppWorld {
  app_post : string -> AppPayload -> AppPostOutcome;
  app_get : string -> GetOutcome;
  now_isoformat : string
}.

(** The dictionary [RasaService.send_message] of [app.py] returns. *)
Record AppRasaResult : Type := mkAppRasa {
  app_success : bool;
  app_message : string;
  app_source : string
}.

(** The JSON body of a request to [/api/chat/message]: its two fields, and
    whether the object holds any other key. *)
Record AppRequest : Type := mkAppRequest {
  app_req_message : field string;
  app_req_session_id : field string;
  app_req_other_keys : bool
}.

(** The answers of [/api/chat/message]. *)
Inductive AppResponse : Type :=
| AppBadRequest (error : string)                                   (* 400 *)
| AppOk (message : string) (session_id : option string) (source timestamp : string)
                                                                   (* 200 *)
| AppUnavailable (message error timestamp : string)                (* 503 *)
| AppServerError (message error timestamp : string).               (* 500 *)

Module App.

Definition rasa_url : string := "http://localhost:5005".
Definition webhook_url : string := rasa_url ++ "/webhooks/rest/webhook".

Section WithWorld.
Variable w : AppWorld.

(** [RasaService.send_message(message, sender_id)] *)
Definition send_message (message : string) (sender_id : option string)
  : AppRasaResult :=
  let payload := mkAppPayload sender_id message in
  match app_post w webhook_url payload with
  | AppConnectionError =>
      mkAppRasa false
        "AI assistant is currently unavailable. Please ensure Rasa server is running on port 5005."
        "connection_error"
  | AppRaises _ => mkAppRasa false "Error communicating with AI assistant" "error"
  | AppReturns status_code body =>
      if (status_code =? 200)%Z then
        match body with
        | Raise _ => mkAppRasa false "Error communicating with AI assistant" "error"
        | Ok (first :: _) =>
            mkAppRasa true
              (match text first with Some t => t | None => "No response from AI" end)
              "rasa_ai"
        | Ok [] => mkAppRasa false "No response from AI assistant" "error"
        end
      else mkAppRasa false ("AI server error: " ++ PyStr.of_int status_code) "error"
  end.

(** [RasaService.check_health()] *)
Definition check_health : bool :=
  match app_get w (rasa_url ++ "/status") with
  | GetReturns status_code => (status_code =? 200)%Z
  | GetRaises => false
  end.

(** [not data] for the JSON body: none, or an object with no key. *)
Definition no_data (request_json : option AppRequest) : bool :=
  match request_json with
  | None => true
  | Some data =>
      match app_req_message data, app_req_session_id data with
      | Absent, Absent => negb (app_req_other_keys data)
      | _, _ => false
      end
  end.

(** The body of the [try] of [chat_message]. *)
Definition chat_message_body (request_json : option AppRequest) : exc AppResponse :=
  if no_data request_json then Ok (AppBadRequest "No data provided")
  else
    match request_json with
    | None => Ok (AppBadRequest "No data provided")
    | Some data =>
        user_message <-
          match app_req_message data with
          | Absent => Ok (PyStr.strip "")
          | Null => Raise "'NoneType' object has no attribute 'strip'"
          | Val m => Ok (PyStr.strip m)
          end ;;
        let session_id := ChatRoutes.get_default (app_req_session_id data) "default_user" in
        if String.eqb user_message "" then Ok (AppBadRequest "Message is required")
        else
          let rasa_result := send_message user_message session_id in
          if app_success rasa_result
          then Ok (AppOk (app_message rasa_result) session_id "rasa_ai" (now_isoformat w))
          else Ok (AppUnavailable (app_message rasa_result) (app_source rasa_result)
                     (now_isoformat w))
    end.

(** [chat_message()] *)
Definition chat_message (request_json : option AppRequest) : AppResponse :=
  match chat_message_body request_json with
  | Ok response => response
  | Raise e =>
      AppServerError "Internal server error. Please try again." e (now_isoformat w)
  end.

End WithWorld.
End App.

(** ** Notions the properties are stated with *)

(** The entries of the store in the order the two loops of
    [search_information] visit them: category, subcategory, data. *)
Definition entries (kb : Store) : list (string * string * json) :=
  flat_map (fun c : string * list (string * json) =>
              map (fun e : string * json => (fst c, fst e, snd e)) (snd c)) kb.

(** The words of a query, as [search_information] reads them. *)
Definition query_words (query : string) : list string :=
  PyStr.split (PyStr.lower query).

(** The text of an entry that the words are looked up in. *)
Definition searchable (d : json) : string := PyStr.lower (Json.dumps d).

(** How many words of the query occur in an entry, a word counted as often
    as the query repeats it. *)
Definition matched (query : string) (d : json) : nat :=
  CollegeKnowledgeBase.count_matches (query_words query) (searchable d).

(** The same count over the distinct words of the query, as the
    specification words it. *)
Definition matched_distinct (query : string) (d : json) : nat :=
  length (nodup string_dec
            (filter (fun word => PyStr.str_in word (searchable d)) (query_words query))).

(** A list of hits is in non-increasing order of relevance. *)
Definition descending (hits : list SearchHit) : Prop :=
  StronglySorted (fun a b => relevance_score b <= relevance_score a) hits.

(** The hits of relevance [r]. *)
Definition of_relevance (r : Q) (hits : list SearchHit) : list SearchHit :=
  filter (fun h => Qeq_bool (relevance_score h) r) hits.

(** [l1] is an initial segment of [l2]. *)
Definition initial_segment {A : Type} (l1 l2 : list A) : Prop :=
  exists rest, l2 = (l1 ++ rest)%list.

(** The calls of a trace that reach the dialogue engine, and those that
    reach the response generator. *)
Definition engine_call (ev : Event) : bool :=
  match ev with
  | CallRasa _ _ _ => true
  | _ => false
  end.

Definition generator_call (ev : Event) : bool :=
  match ev with
  | CallGenerateResponse _ _ | CallDefaultResponse => true
  | _ => false
  end.

(** The message of a request as the route reads it: stripped and not
    empty. *)
Definition message_of (data : RequestData) (message_text : string) : Prop :=
  exists m, req_message data = Val m /\ PyStr.strip m = message_text
            /\ message_text <> "".

(** The calls the route has made when it reaches the gate. *)
Definition preamble (w : World) (data : RequestData) (message_text : string)
  : list Event :=
  let session_id := ChatRoutes.session_of w data in
  let detected := LanguageService.detect_language w message_text in
  ([CallDetectLanguage message_text; DbQuerySession session_id]
   ++ (if session_exists w session_id then []
       else [DbAdd (ChatSessionRow session_id (ChatRoutes.get (req_user_id data))
                      (ChatRoutes.language_of data detected))])
   ++ [DbAdd (UserMessageRow session_id message_text);
       CallClassifyIntent message_text])%list.

(** The call the route makes to translate [text] for the language [lang]:
    none for English. *)
Definition translation (lang text : string) : list Event :=
  if String.eqb lang "en" then [] else [CallTranslateFromRasa text lang].

(** The source of the answer a response reports, when it reports one. *)
Definition cr_response_source_of (r : Response) : option string :=
  match r with
  | ChatReply c => Some (cr_response_source c)
  | _ => None
  end.

(** A request that carries a message and nothing else. *)
Definition plain_request (m : string) : RequestData :=
  mkRequest (Val m) Absent Absent Absent Absent.

(** A world in which nothing outside the process answers: the translator
    and the HTTP client raise. *)
Definition offline_world : World :=
  mkWorld (fun _ => Raise "ConnectError")
          (fun _ _ _ => Raise "ConnectError")
          (fun _ _ => PostRaises "Connection refused")
          (fun _ => false)
          "00000000-0000-4000-8000-000000000000"
          12.

(** The outcomes of the request on which the engine is not available: the
    request raises (the engine cannot be reached, or the call times out), the
    status is not 200, or the status is 200 and the body is no list of
    messages or an empty one. *)
Inductive engine_unavailable : PostOutcome -> Prop :=
| Unreachable (e : string) : engine_unavailable (PostRaises e)
| NonSuccess (status : Z) (body : exc (list EngineMessage)) :
    status <> 200%Z -> engine_unavailable (PostReturns status body)
| EmptyPayload : engine_unavailable (PostReturns 200 (Ok []))
| BadPayload (e : string) : engine_unavailable (PostReturns 200 (Raise e)).

(** The world [offline_world] with an HTTP client that gives [o] for every
    request. *)
Definition answering (o : PostOutcome) : World :=
  mkWorld (translator_detect offline_world) (translator_translate offline_world)
          (fun _ _ => o) (session_exists offline_world) (uuid4 offline_world)
          (elapsed_ms offline_world).

(** A string that holds white space only. *)
Fixpoint all_space (s : string) : bool :=
  match s with
  | EmptyString => true
  | String c s' => PyStr.is_space c && all_space s'
  end.

(** The intents that [generate_response] has a generator for. *)
Definition dedicated_intents : list string :=
  [ "admission_inquiry"; "course_information"; "fee_inquiry"; "placement_inquiry";
    "hostel_accommodation"; "campus_facilities" ].

(** The calls of a trace that go to the database. *)
Definition db_call (ev : Event) : bool :=
  match ev with
  | DbQuerySession _ | DbAdd _ | DbTouchSession _ | DbCommit | DbRollback => true
  | _ => false
  end.

(** * Properties *)

(** ** Lists and comparisons *)

Lemma Qltb_true (a b : Q) : Qltb a b = true <-> a < b.
Proof.
  unfold Qltb. rewrite negb_true_iff. split; intro H.
  - apply Qnot_le_lt. intro Hle. apply Qle_bool_iff in Hle. congruence.
  - destruct (Qle_bool b a) eqn:E; [|reflexivity].
    apply Qle_bool_iff in E. exfalso. exact (Qlt_not_le _ _ H E).
Qed.

Lemma Qltb_false (a b : Q) : Qltb a b = false <-> b <= a.
Proof.
  unfold Qltb. rewrite negb_false_iff. apply Qle_bool_iff.
Qed.

Section Firstn.
Context {A : Type}.

Lemma firstn_incl (n : nat) (l : list A) (a : A) :
  In a (firstn n l) -> In a l.
Proof.
  revert n. induction l as [|x l IH]; intros [|n]; simpl; try tauto.
  intros [->|H]; [now left | right; eauto].
Qed.

Lemma firstn_sorted (R : A -> A -> Prop) (n : nat) (l : list A) :
  StronglySorted R l -> StronglySorted R (firstn n l).
Proof.
  intro H. revert n. induction H as [|x l Hl IH Hx]; intro n.
  - rewrite firstn_nil. constructor.
  - destruct n; simpl; constructor; [apply IH|].
    apply Forall_forall. intros a Ha. rewrite Forall_forall in Hx.
    apply Hx. revert Ha. apply firstn_incl.
Qed.

Lemma firstn_filter_segment (q : A -> bool) (n : nat) (l : list A) :
  initial_segment (filter q (firstn n l)) (filter q l).
Proof.
  exists (filter q (skipn n l)).
  rewrite <- filter_app, firstn_skipn. reflexivity.
Qed.
End Firstn.

(** ** The stable sort *)

Section StableSortFacts.
Context {A : Type}.
Variable key : A -> Q.

Let ge (a b : A) : Prop := key b <= key a.

Lemma insert_desc_In (x a : A) (l : list A) :
  In a (insert_desc key x l) <-> a = x \/ In a l.
Proof.
  induction l as [|y l IH]; simpl.
  - intuition.
  - destruct (Qltb (key x) (key y)); simpl; rewrite ?IH; intuition.
Qed.

Lemma sort_desc_In (a : A) (l : list A) : In a (sort_desc key l) <-> In a l.
Proof.
  induction l as [|x l IH]; simpl; [reflexivity|].
  rewrite insert_desc_In, IH. intuition.
Qed.

Lemma insert_desc_sorted (x : A) (l : list A) :
  StronglySorted ge l -> StronglySorted ge (insert_desc key x l).
Proof.
  induction 1 as [|y l Hl IH Hy]; simpl.
  - repeat constructor.
  - destruct (Qltb (key x) (key y)) eqn:E.
    + constructor; [exact IH|].
      apply Forall_forall. intros a Ha. apply insert_desc_In in Ha.
      destruct Ha as [->|Ha].
      * apply Qltb_true in E. unfold ge. apply Qlt_le_weak, E.
      * rewrite Forall_forall in Hy. auto.
    + apply Qltb_false in E. constructor; [constructor; assumption|].
      constructor; [exact E|].
      apply Forall_forall. intros a Ha. rewrite Forall_forall in Hy.
      unfold ge in *. apply Qle_trans with (key y); auto.
Qed.

Lemma insert_desc_Permutation (x : A) (l : list A) :
  Permutation (insert_desc key x l) (x :: l).
Proof.
  induction l as [|y l IH]; simpl; [reflexivity|].
  destruct (Qltb (key x) (key y)); [|reflexivity].
  rewrite IH. apply perm_swap.
Qed.

Lemma sort_desc_Permutation (l : list A) : Permutation (sort_desc key l) l.
Proof.
  induction l as [|x l IH]; simpl; [reflexivity|].
  rewrite insert_desc_Permutation. now constructor.
Qed.

Lemma sort_desc_sorted (l : list A) : StronglySorted ge (sort_desc key l).
Proof.
  induction l as [|x l IH]; simpl; [constructor|].
  apply insert_desc_sorted, IH.
Qed.

(** Stability: a predicate that selects elements of one key sees them in
    the order they had before the sort. *)
Section Stable.
Variable p : A -> bool.
Hypothesis p_one_key : forall a b, p a = true -> p b = true -> key a == key b.

Lemma insert_desc_filter (x : A) (l : list A) :
  filter p (insert_desc key x l) = filter p (x :: l).
Proof.
  induction l as [|y l IH]; [reflexivity|].
  simpl insert_desc. destruct (Qltb (key x) (key y)) eqn:E; [|reflexivity].
  apply Qltb_true in E.
  change (filter p (y :: insert_desc key x l))
    with (if p y then y :: filter p (insert_desc key x l)
          else filter p (insert_desc key x l)).
  rewrite IH. simpl.
  destruct (p x) eqn:Hx, (p y) eqn:Hy; try reflexivity.
  exfalso. pose proof (p_one_key _ _ Hx Hy) as Heq.
  rewrite Heq in E. exact (Qlt_irrefl _ E).
Qed.

Lemma sort_desc_filter (l : list A) : filter p (sort_desc key l) = filter p l.
Proof.
  induction l as [|x l IH]; [reflexivity|].
  simpl sort_desc. rewrite insert_desc_filter. simpl. now rewrite IH.
Qed.
End Stable.

(** The stable sort is unique: two lists in non-increasing order of key that
    hold, for each key, the same elements in the same order are one list.  So
    [sort_desc] is what any stable sort returns, whatever its algorithm. *)
Lemma stable_sorted_unique (l1 l2 : list A) :
  StronglySorted ge l1 -> StronglySorted ge l2 ->
  (forall r, filter (fun a => Qeq_bool (key a) r) l1
             = filter (fun a => Qeq_bool (key a) r) l2) ->
  l1 = l2.
Proof.
  intro H1. revert l2. induction H1 as [|x l1 Hs1 IH Hx]; intros l2 H2 H.
  - destruct l2 as [|y l2]; [reflexivity|].
    specialize (H (key y)). simpl in H. rewrite Qeq_bool_refl in H. discriminate.
  - destruct l2 as [|y l2].
    { specialize (H (key x)). simpl in H. rewrite Qeq_bool_refl in H. discriminate. }
    inversion H2 as [|y' l2' Hs2 Hy]; subst.
    rewrite Forall_forall in Hx, Hy.
    assert (Hkey : key x == key y).
    { apply Qle_antisym.
      - pose proof (H (key x)) as Hr. simpl in Hr. rewrite Qeq_bool_refl in Hr.
        destruct (Qeq_bool (key y) (key x)) eqn:E.
        + apply Qeq_bool_iff in E. rewrite E. apply Qle_refl.
        + apply Hy. apply (proj1 (filter_In (fun a => Qeq_bool (key a) (key x)) x l2)).
          rewrite <- Hr. now left.
      - pose proof (H (key y)) as Hr. simpl in Hr. rewrite Qeq_bool_refl in Hr.
        destruct (Qeq_bool (key x) (key y)) eqn:E.
        + apply Qeq_bool_iff in E. rewrite E. apply Qle_refl.
        + apply Hx. apply (proj1 (filter_In (fun a => Qeq_bool (key a) (key y)) y l1)).
          rewrite Hr. now left. }
    assert (Hcls : forall r, Qeq_bool (key x) r = Qeq_bool (key y) r).
    { intro r. now rewrite Hkey. }
    assert (Hxy : x = y).
    { specialize (H (key x)). simpl in H. rewrite <- Hcls, Qeq_bool_refl in H.
      now injection H. }
    subst y. f_equal. apply IH; [exact Hs2|].
    intro r. specialize (H r). simpl in H.
    destruct (Qeq_bool (key x) r); [now injection H | exact H].
Qed.

(** A sorted list that is key by key as [l] is [sort_desc] of [l]. *)
Lemma sort_desc_unique (l l' : list A) :
  StronglySorted ge l' ->
  (forall r, filter (fun a => Qeq_bool (key a) r) l'
             = filter (fun a => Qeq_bool (key a) r) l) ->
  l' = sort_desc key l.
Proof.
  intros Hs H. apply stable_sorted_unique; [exact Hs | apply sort_desc_sorted|].
  intro r. rewrite sort_desc_filter; [apply H|].
  intros a b Ha Hb. apply Qeq_bool_iff in Ha, Hb. now rewrite Ha, Hb.
Qed.
End StableSortFacts.

(** ** The knowledge store: search *)

Section SearchFacts.
Import CollegeKnowledgeBase.
Variable kb : Store.
Variable query : string.

Lemma scan_entry_hit (c s : string) (d : json) (h : SearchHit) :
  In h (scan_entry (PyStr.lower query) c (s, d)) ->
  h = mkHit c s d (ratio (matched query d) (length (query_words query)))
  /\ (1 <= matched query d)%nat.
Proof.
  unfold scan_entry, matched, query_words, searchable.
  destruct (0 <? _)%nat eqn:E; simpl; [|tauto].
  intros [<-|[]]. split; [reflexivity|].
  apply Nat.ltb_lt in E. lia.
Qed.

Lemma collect_hit (h : SearchHit) :
  In h (collect kb query) ->
  exists cd, In (hit_category h, cd) kb
             /\ In (hit_subcategory h, hit_data h) cd
             /\ (1 <= matched query (hit_data h))%nat
             /\ relevance_score h
                = ratio (matched query (hit_data h)) (length (query_words query)).
Proof.
  unfold collect. intro H.
  apply in_flat_map in H. destruct H as [[c cd] [Hc H]].
  apply in_flat_map in H. destruct H as [[s d] [Hs H]].
  apply scan_entry_hit in H. destruct H as [-> Hm].
  exists cd. simpl. auto.
Qed.

(** The hits are found in the order of the entries: the hits, read as
    entries, are the entries with a match, in their order. *)
Lemma collect_in_order :
  map (fun h => (hit_category h, hit_subcategory h, hit_data h)) (collect kb query)
  = filter (fun e => (0 <? matched query (snd e))%nat) (entries kb).
Proof.
  unfold collect, entries.
  induction kb as [|[c cd] kb' IH]; [reflexivity|].
  simpl flat_map. rewrite map_app, filter_app, IH. f_equal.
  clear IH. induction cd as [|[s d] cd' IH]; [reflexivity|].
  simpl flat_map. simpl map at 2. rewrite map_app. simpl filter.
  rewrite IH. unfold matched at 1, query_words, searchable.
  destruct (0 <? _)%nat; reflexivity.
Qed.

(** A hit with a match comes from a query that has a word. *)
Lemma matched_words (d : json) :
  (matched query d <= length (query_words query))%nat.
Proof. unfold matched, count_matches. apply filter_length_le. Qed.
End SearchFacts.

(** C1, as the code has it: [search_information] returns at most 5 hits, in
    non-increasing order of relevance; hits of equal relevance stand in the
    order in which the two loops found them (category by category, each
    subcategory in turn); every returned hit is an entry of the store with at
    least one match, and its relevance is the number of words of the
    lower-cased query that occur in the serialized, lower-cased entry, a
    repeated word counted each time, over the number of words of the query.
    An entry with no match is never returned. *)
Theorem search_information_hits (kb : Store) (query : string) :
  let hits := CollegeKnowledgeBase.search_information kb query in
  let found := CollegeKnowledgeBase.collect kb query in
  (length hits <= 5)%nat
  /\ descending hits
  /\ map (fun h => (hit_category h, hit_subcategory h, hit_data h)) found
     = filter (fun e => (0 <? matched query (snd e))%nat) (entries kb)
  /\ (forall r, initial_segment (of_relevance r hits) (of_relevance r found))
  /\ (forall h, In h hits ->
        (exists cd, In (hit_category h, cd) kb
                    /\ In (hit_subcategory h, hit_data h) cd)
        /\ (1 <= matched query (hit_data h) <= length (query_words query))%nat
        /\ relevance_score h
           == CollegeKnowledgeBase.ratio (matched query (hit_data h))
                (length (query_words query))).
Proof.
  intros hits found. subst hits found. unfold CollegeKnowledgeBase.search_information.
  split; [|split; [|split; [|split]]].
  - apply firstn_le_length.
  - apply firstn_sorted, sort_desc_sorted.
  - apply collect_in_order.
  - intro r. unfold of_relevance.
    assert (Hr : forall a b : SearchHit,
               Qeq_bool (relevance_score a) r = true ->
               Qeq_bool (relevance_score b) r = true ->
               relevance_score a == relevance_score b).
    { intros a b Ha Hb. apply Qeq_bool_iff in Ha, Hb. now rewrite Ha, Hb. }
    rewrite <- (sort_desc_filter relevance_score _ Hr
                  (CollegeKnowledgeBase.collect kb query)).
    apply firstn_filter_segment.
  - intros h H.
    apply firstn_incl, sort_desc_In, collect_hit in H.
    destruct H as [cd [Hc [Hs [Hm Hr]]]].
    split; [eauto|]. split; [split; [exact Hm | apply matched_words]|].
    rewrite Hr. reflexivity.
Qed.

(** C1, as the specification words it, fails: for the query "fee fee" the
    first hit has relevance 2/2, where one distinct word out of two would
    give 1/2. *)
Lemma search_counts_repeated_words :
  exists h, In h (CollegeKnowledgeBase.search_information knowledge_base "fee fee")
            /\ ~ relevance_score h
                 == CollegeKnowledgeBase.ratio (matched_distinct "fee fee" (hit_data h))
                      (length (query_words "fee fee")).
Proof.
  destruct (CollegeKnowledgeBase.search_information knowledge_base "fee fee")
    as [|h l] eqn:E.
  - vm_compute in E. discriminate.
  - exists h. split; [now left|].
    vm_compute in E. injection E as <- _.
    vm_compute. discriminate.
Qed.

(** ** The knowledge store: lookup *)

Lemma dict_mem_get {V : Type} (k : string) (d : list (string * V)) :
  Dict.mem k d = false <-> Dict.get k d = None.
Proof.
  unfold Dict.mem. destruct (Dict.get k d); split; congruence.
Qed.

(** C6: for a category of the store, a subcategory that is no key of the
    category, or none at all, makes [get_information] succeed with the whole
    category as its data; for a category that the store does not have,
    [get_information] fails and carries the names of the categories of the
    store. *)
Theorem get_information_lookup (kb : Store) (cat : string) (subcat : option string) :
  (forall category_data,
      Dict.get cat kb = Some category_data ->
      match subcat with
      | Some s => Dict.mem s category_data = false
      | None => True
      end ->
      CollegeKnowledgeBase.get_information kb cat subcat
      = mkInfo true (Some (JDict category_data)) (Some cat) None None None)
  /\ (Dict.mem cat kb = false ->
      CollegeKnowledgeBase.get_information kb cat subcat
      = mkInfo false None None None
          (Some ("Category " ++ cat ++ " not found")) (Some (Dict.keys kb))).
Proof.
  unfold CollegeKnowledgeBase.get_information. split.
  - intros category_data Hcat Hsub. rewrite Hcat.
    destruct subcat as [s|]; simpl; [|reflexivity].
    destruct (negb (s =? "")); [|reflexivity].
    apply dict_mem_get in Hsub. now rewrite Hsub.
  - intro Hcat. apply dict_mem_get in Hcat. now rewrite Hcat.
Qed.

Example lookup_btech_duration :
  exists d, data (CollegeKnowledgeBase.get_information knowledge_base "courses"
                    (Some "btech")) = Some d
            /\ PyVal.subscript d "duration" = Ok (JStr "4 years").
Proof. eexists. split; reflexivity. Qed.

Example lookup_unknown_subcategory :
  CollegeKnowledgeBase.get_information knowledge_base "courses" (Some "phd")
  = CollegeKnowledgeBase.get_information knowledge_base "courses" None.
Proof. reflexivity. Qed.

Example lookup_nonexistent_category :
  available_categories
    (CollegeKnowledgeBase.get_information knowledge_base "nonexistent_category" None)
  = Some ["courses"; "admission_process"; "facilities"; "placement_stats"].
Proof. reflexivity. Qed.

(** ** The response generator: the course of a query *)

(** C10: [_extract_course_from_query] returns one of the three codes; it
    tries the terms of btech, then those of mtech, then those of mba, so the
    earliest list with a term in the lower-cased query decides, and a query
    with no term at all yields btech.  So a query with "bachelor" yields
    btech whatever else it holds, and a query with "master" and no term of
    btech yields mtech whatever term of mba it holds. *)
Theorem extract_course_order (query : string) :
  let q := PyStr.lower query in
  let course := CollegeResponseGenerator._extract_course_from_query query in
  let btech := PyStr.any_in CollegeResponseGenerator.btech_terms q in
  let mtech := PyStr.any_in CollegeResponseGenerator.mtech_terms q in
  let mba := PyStr.any_in CollegeResponseGenerator.mba_terms q in
  (course = "btech" \/ course = "mtech" \/ course = "mba")
  /\ (btech = true -> course = "btech")
  /\ (btech = false -> mtech = true -> course = "mtech")
  /\ (btech = false -> mtech = false -> mba = true -> course = "mba")
  /\ (btech = false -> mtech = false -> mba = false -> course = "btech")
  /\ (PyStr.str_in "bachelor" q = true -> course = "btech")
  /\ (PyStr.str_in "master" q = true -> btech = false -> course = "mtech").
Proof.
  intros q course btech mtech mba.
  assert (Hb : PyStr.str_in "bachelor" q = true -> btech = true).
  { intro H. subst btech. unfold PyStr.any_in, CollegeResponseGenerator.btech_terms.
    simpl existsb. rewrite H. now rewrite !orb_true_r. }
  assert (Hm : PyStr.str_in "master" q = true -> mtech = true).
  { intro H. subst mtech. unfold PyStr.any_in, CollegeResponseGenerator.mtech_terms.
    simpl existsb. rewrite H. now rewrite !orb_true_r. }
  subst course. unfold CollegeResponseGenerator._extract_course_from_query.
  fold q. fold btech. fold mtech. fold mba.
  destruct btech, mtech, mba; repeat split; intros; auto; try discriminate;
    try (specialize (Hb ltac:(assumption)); discriminate);
    try (specialize (Hm ltac:(assumption)); discriminate).
Qed.

Example extract_bachelor_of_business :
  CollegeResponseGenerator._extract_course_from_query "Bachelor of Business" = "btech".
Proof. reflexivity. Qed.

Example extract_master_of_business :
  CollegeResponseGenerator._extract_course_from_query
    "Master of Business Administration" = "mtech".
Proof. reflexivity. Qed.

Example extract_no_term :
  CollegeResponseGenerator._extract_course_from_query "How much does it cost" = "btech".
Proof. reflexivity. Qed.

(** C7: for the text "What is the fee for mtech" the course extracted is
    mtech, and the response generated for the intent fee_inquiry holds the
    text "2-3 lakh per year". *)
Theorem fee_for_mtech :
  CollegeResponseGenerator._extract_course_from_query "What is the fee for mtech"
  = "mtech"
  /\ PyStr.str_in "2-3 lakh per year"
       (CollegeResponseGenerator.generate_response knowledge_base "fee_inquiry"
          "What is the fee for mtech") = true.
Proof.
  split.
  - reflexivity.
  - unfold CollegeResponseGenerator.generate_response,
      CollegeResponseGenerator.generate_body.
    simpl String.eqb.
    replace (CollegeResponseGenerator._extract_course_from_query
               "What is the fee for mtech") with "mtech" by reflexivity.
    vm_compute. reflexivity.
Qed.

(** ** The intent classifier *)

Section ClassifierFacts.
Import CollegeIntentClassifier.

Lemma max_item_from (items : list (string * Q)) (best top : option (string * Q)) :
  fold_left (fun best item =>
               match best with
               | None => Some item
               | Some b => if Qltb (snd b) (snd item) then Some item else best
               end) items best = top ->
  top = best \/ exists x, top = Some x /\ In x items.
Proof.
  revert best. induction items as [|item items IH]; simpl; intros best H.
  - now left.
  - apply IH in H. destruct H as [H|[x [H Hx]]].
    + destruct best as [b|].
      * destruct (Qltb (snd b) (snd item)); [right; exists item|left]; auto.
      * right. exists item. auto.
    + right. exists x. auto.
Qed.

(** The item [max] picks is one of the items. *)
Lemma max_item_In (items : list (string * Q)) (x : string * Q) :
  max_item items = Some x -> In x items.
Proof.
  intro H. apply max_item_from in H.
  destruct H as [H|[y [H Hy]]]; [discriminate|]. now injection H as ->.
Qed.

(** A score under the threshold stays under it once clamped. *)
Lemma below_threshold (score : Q) :
  score / 10 < 3 # 10 -> Qle_bool (3 # 10) (Qmin (score / 10) 1) = false.
Proof.
  intro H. destruct (Qle_bool (3 # 10) (Qmin (score / 10) 1)) eqn:E; [|reflexivity].
  apply Qle_bool_iff in E. exfalso.
  apply (Qlt_not_le _ _ H). apply Qle_trans with (Qmin (score / 10) 1); [exact E|].
  apply Q.le_min_l.
Qed.
End ClassifierFacts.

(** C2: when every intent scores under the threshold (its score divided by
    10 is below 0.3) and the lower-cased text holds none of the words
    college, university, student, education, academic, [classify_intent]
    returns the intent unknown with confidence 0 and is_college_related
    false. *)
Theorem classify_out_of_domain (text : string) :
  let text_lower := PyStr.lower text in
  (forall i score,
      In (i, score) (CollegeIntentClassifier.intent_scores text_lower) ->
      score / 10 < 3 # 10) ->
  PyStr.any_in CollegeIntentClassifier.college_keywords text_lower = false ->
  CollegeIntentClassifier.classify_intent (PyStr text)
  = mkCls "unknown" 0 (Some (CollegeIntentClassifier.intent_scores text_lower))
      None false.
Proof.
  intros text_lower Hscores Hwords.
  unfold CollegeIntentClassifier.classify_intent, CollegeIntentClassifier.classify_body.
  simpl py_lower. fold text_lower. unfold CollegeIntentClassifier.decide.
  rewrite Hwords.
  destruct (CollegeIntentClassifier.max_item _) as [[i score]|] eqn:E; [|reflexivity].
  apply max_item_In, Hscores in E. simpl snd.
  now rewrite (below_threshold _ E).
Qed.

Lemma classify_out_of_domain_witness :
  (forall i score,
      In (i, score) (CollegeIntentClassifier.intent_scores (PyStr.lower "hello there")) ->
      score / 10 < 3 # 10)
  /\ PyStr.any_in CollegeIntentClassifier.college_keywords (PyStr.lower "hello there")
     = false
  /\ CollegeIntentClassifier.classify_intent (PyStr "hello there")
     = mkCls "unknown" 0
         (Some (CollegeIntentClassifier.intent_scores (PyStr.lower "hello there")))
         None false.
Proof.
  assert (H : forall i score,
             In (i, score)
               (CollegeIntentClassifier.intent_scores (PyStr.lower "hello there")) ->
             score / 10 < 3 # 10).
  { intros i score Hin. vm_compute in Hin.
    repeat (destruct Hin as [Hin|Hin]; [injection Hin as _ <-; reflexivity|]).
    destruct Hin. }
  split; [exact H|]. split; [reflexivity|].
  apply (classify_out_of_domain "hello there" H). reflexivity.
Defined.

(** C8, as the code has it: when the body of [classify_intent] raises, which
    it does exactly on an argument that is no string, the exception does not
    leave [classify_intent]: the result has the intent error, confidence 0,
    is_college_related false, and the message of the exception. *)
Theorem classify_fault_is_caught (text : pyval) (e : string) :
  CollegeIntentClassifier.classify_body text = Raise e ->
  (forall s, text <> PyStr s)
  /\ CollegeIntentClassifier.classify_intent text = mkCls "error" 0 None (Some e) false.
Proof.
  intro H. split.
  - intros s ->. discriminate H.
  - unfold CollegeIntentClassifier.classify_intent. now rewrite H.
Qed.

Lemma classify_fault_witness :
  CollegeIntentClassifier.classify_body PyNone
  = Raise "'NoneType' object has no attribute 'lower'"
  /\ (forall s, PyNone <> PyStr s)
  /\ CollegeIntentClassifier.classify_intent PyNone
     = mkCls "error" 0 None (Some "'NoneType' object has no attribute 'lower'") false.
Proof.
  split; [reflexivity|].
  apply (classify_fault_is_caught PyNone _ eq_refl).
Defined.

(** C8, as the specification words it, fails: on the argument [None] the
    body raises and the intent returned is error, not unknown. *)
Lemma classify_fault_not_unknown :
  CollegeIntentClassifier.classify_body PyNone
  = Raise "'NoneType' object has no attribute 'lower'"
  /\ intent (CollegeIntentClassifier.classify_intent PyNone) <> "unknown".
Proof. split; [reflexivity | discriminate]. Qed.

(** ** The adapter of the dialogue engine *)

Lemma of_int_inj (a b : Z) : PyStr.of_int a = PyStr.of_int b -> a = b.
Proof.
  unfold PyStr.of_int. intro H.
  apply (f_equal NilEmpty.int_of_string) in H.
  rewrite !NilEmpty.isi in H. injection H as H.
  now apply DecimalZ.to_int_inj.
Qed.

Section AdapterFacts.
Variable w : World.
Variables message sender_id : string.
Variable metadata : option Metadata.

Let outcome : PostOutcome :=
  requests_post w RasaService.webhook_endpoint (mkPayload sender_id message metadata).
Let result : RasaResult := RasaService.send_message w message sender_id metadata.

(** The adapter reports a failure exactly when the engine is not
    available. *)
Lemma adapter_reports_failure :
  engine_unavailable outcome <-> r_success result = false.
Proof.
  subst outcome result. unfold RasaService.send_message. split.
  - intro H. inversion H as [e He|status body Hs He| He |e He];
      try reflexivity.
    apply Z.eqb_neq in Hs. now rewrite Hs.
  - destruct (requests_post _ _ _) as [e|status body]; [constructor|].
    destruct (status =? 200)%Z eqn:E.
    + apply Z.eqb_eq in E. subst status.
      destruct body as [[|first rest]|e]; simpl; intro H;
        [apply EmptyPayload | discriminate H | apply BadPayload].
    + apply Z.eqb_neq in E. intros _. now constructor.
Qed.

Lemma adapter_on_raise (e : string) :
  outcome = PostRaises e -> result = RasaService.failure e.
Proof.
  subst outcome result. unfold RasaService.send_message. now intros ->.
Qed.

Lemma adapter_on_status (status : Z) (body : exc (list EngineMessage)) :
  outcome = PostReturns status body -> status <> 200%Z ->
  result = RasaService.failure ("HTTP " ++ PyStr.of_int status).
Proof.
  subst outcome result. unfold RasaService.send_message. intros -> H.
  apply Z.eqb_neq in H. now rewrite H.
Qed.

Lemma adapter_on_empty :
  outcome = PostReturns 200 (Ok []) -> result = RasaService.failure "HTTP 200".
Proof.
  subst outcome result. unfold RasaService.send_message. now intros ->.
Qed.
End AdapterFacts.

Lemma failure_inj (a b : string) :
  RasaService.failure a = RasaService.failure b -> a = b.
Proof. unfold RasaService.failure. now intros [= ->]. Qed.

(** C9: the adapter tells its three causes of failure apart in the value it
    returns.  When the request raises (the engine cannot be reached, or the
    call times out) the error is the message of the exception; on a status
    other than 200 it is HTTP followed by the status; on status 200 with an
    empty list it is HTTP 200.  The values for a refused status and for an
    empty list always differ, and the value for an exception differs from
    both unless the message of the exception itself starts with HTTP and a
    space, as the text of a status error does. *)
Theorem adapter_causes_distinct (w1 w2 w3 : World) (message sender_id : string)
  (metadata : option Metadata) (e : string) (status : Z)
  (body : exc (list EngineMessage)) :
  let payload := mkPayload sender_id message metadata in
  requests_post w1 RasaService.webhook_endpoint payload = PostRaises e ->
  requests_post w2 RasaService.webhook_endpoint payload = PostReturns status body ->
  status <> 200%Z ->
  requests_post w3 RasaService.webhook_endpoint payload = PostReturns 200 (Ok []) ->
  let unreachable := RasaService.send_message w1 message sender_id metadata in
  let refused := RasaService.send_message w2 message sender_id metadata in
  let empty := RasaService.send_message w3 message sender_id metadata in
  (r_success unreachable = false /\ r_error unreachable = Some e)
  /\ (r_success refused = false
      /\ r_error refused = Some ("HTTP " ++ PyStr.of_int status))
  /\ (r_success empty = false /\ r_error empty = Some "HTTP 200")
  /\ refused <> empty
  /\ (String.prefix "HTTP " e = false -> unreachable <> refused /\ unreachable <> empty).
Proof.
  intros payload H1 H2 Hstatus H3 unreachable refused empty.
  subst unreachable refused empty.
  rewrite (adapter_on_raise _ _ _ _ _ H1).
  rewrite (adapter_on_status _ _ _ _ _ _ H2 Hstatus).
  rewrite (adapter_on_empty _ _ _ _ H3).
  split; [split; reflexivity|]. split; [split; reflexivity|].
  split; [split; reflexivity|]. split.
  - intro H. apply failure_inj in H. injection H as H.
    apply (of_int_inj status 200) in H. contradiction.
  - intro He. split; intro H; apply failure_inj in H; subst e.
    + simpl in He. destruct (PyStr.of_int status); discriminate He.
    + discriminate He.
Qed.

Lemma adapter_causes_distinct_witness :
  let unreachable := RasaService.send_message offline_world "hi" "s1" None in
  let refused :=
    RasaService.send_message (answering (PostReturns 503 (Raise "no JSON")))
      "hi" "s1" None in
  let empty := RasaService.send_message (answering (PostReturns 200 (Ok []))) "hi" "s1" None in
  (r_success unreachable = false /\ r_error unreachable = Some "Connection refused")
  /\ (r_success refused = false /\ r_error refused = Some "HTTP 503")
  /\ (r_success empty = false /\ r_error empty = Some "HTTP 200")
  /\ refused <> empty
  /\ unreachable <> refused
  /\ unreachable <> empty.
Proof.
  destruct (adapter_causes_distinct offline_world
              (answering (PostReturns 503 (Raise "no JSON")))
              (answering (PostReturns 200 (Ok [])))
              "hi" "s1" None "Connection refused" 503 (Raise "no JSON")
              eq_refl eq_refl ltac:(discriminate) eq_refl)
    as [H1 [H2 [H3 [H4 H5]]]].
  destruct (H5 eq_refl) as [H6 H7].
  repeat (split; [assumption|]). assumption.
Defined.

(** ** The route *)

Lemma translate_from_rasa_en (w : World) (text : string) :
  LanguageService.translate_from_rasa w text "en" = text.
Proof. reflexivity. Qed.

Section RouteFacts.
Variable w : World.
Variable data : RequestData.
Variable message_text : string.

Let intent_result : Classification :=
  CollegeIntentClassifier.classify_intent (PyStr message_text).
Let detected : string := LanguageService.detect_language w message_text.
Let lang : string := ChatRoutes.language_of data detected.
Let session_id : string := ChatRoutes.session_of w data.

(** A request with a message reaches the gate, with the calls of
    [preamble] made. *)
Lemma route_reaches_gate :
  message_of data message_text ->
  ChatRoutes.route_body w (Some data) []
  = (if negb (is_college_related intent_result)
     then ChatRoutes.restricted w data lang
     else ChatRoutes.chat_reply w data message_text detected lang intent_result)
      (preamble w data message_text).
Proof.
  intros [m [Hm [Hs Hne]]].
  unfold ChatRoutes.route_body, preamble. rewrite Hm, Hs.
  apply String.eqb_neq in Hne. rewrite Hne.
  fold detected. fold lang. fold session_id. fold intent_result.
  unfold bindM, call, ret.
  destruct (session_exists w session_id); reflexivity.
Qed.

Lemma restricted_run (t : list Event) :
  let message := LanguageService.translate_from_rasa w ChatRoutes.restricted_response lang in
  ChatRoutes.restricted w data lang t
  = (Ok (RestrictedReply
           (mkRestricted true message session_id lang (ChatRoutes.input_type_of data)
              "non_college_topic" true)),
     (t ++ translation lang ChatRoutes.restricted_response
        ++ [DbAdd (BotMessageRow session_id message); DbCommit])%list).
Proof.
  unfold ChatRoutes.restricted, translation, bindM, call, ret. fold session_id.
  destruct (String.eqb lang "en") eqn:E; cbn [negb].
  - apply String.eqb_eq in E. rewrite E, !translate_from_rasa_en.
    now rewrite <- !app_assoc.
  - now rewrite <- !app_assoc.
Qed.

Lemma answer_local (t : list Event) :
  Qle_bool (7 # 10) (confidence intent_result) = true ->
  ChatRoutes.answer_body w data message_text detected intent_result t
  = (Ok (ChatRoutes.mkAnswer
           (CollegeResponseGenerator.generate_response knowledge_base
              (intent intent_result) message_text)
           (Some (intent intent_result)) (Some (confidence intent_result))
           "college_ai"),
     (t ++ [CallGenerateResponse (intent intent_result) message_text])%list).
Proof.
  intro H. unfold ChatRoutes.answer_body. rewrite H. reflexivity.
Qed.

Lemma answer_fallback (t : list Event) :
  let rasa_message := LanguageService.translate_for_rasa w message_text detected in
  let metadata :=
    Some (mkMeta detected (ChatRoutes.input_type_of data)
            (ChatRoutes.get (req_user_id data)) (intent intent_result)) in
  Qle_bool (7 # 10) (confidence intent_result) = false ->
  r_success (RasaService.send_message w rasa_message session_id metadata) = false ->
  ChatRoutes.answer_body w data message_text detected intent_result t
  = (Ok (ChatRoutes.mkAnswer CollegeResponseGenerator._generate_default_response
           (Some "fallback") (Some (1 # 2)) "college_ai_fallback"),
     (t ++ [CallTranslateForRasa message_text detected;
            CallRasa rasa_message session_id metadata;
            CallDefaultResponse])%list).
Proof.
  intros rasa_message metadata H Hfail. unfold ChatRoutes.answer_body.
  rewrite H. unfold bindM, call, ret. fold session_id.
  fold rasa_message. fold metadata. rewrite Hfail.
  now rewrite <- !app_assoc.
Qed.

Lemma chat_reply_run (t t1 : list Event) (a : ChatRoutes.Answer) :
  ChatRoutes.answer_body w data message_text detected intent_result t = (Ok a, t1) ->
  let message :=
    LanguageService.translate_from_rasa w (ChatRoutes.bot_response_text a) lang in
  ChatRoutes.chat_reply w data message_text detected lang intent_result t
  = (Ok (ChatReply
           (mkChat true message session_id lang detected
              (ChatRoutes.input_type_of data) (ChatRoutes.answer_intent a)
              (ChatRoutes.answer_confidence a) (elapsed_ms w)
              (ChatRoutes.response_source a) (intent intent_result)
              (confidence intent_result))),
     (t1 ++ translation lang (ChatRoutes.bot_response_text a)
         ++ [DbAdd (BotMessageRow session_id message);
             DbTouchSession session_id;
             DbAdd (AnalyticsRow session_id (ChatRoutes.response_source a));
             DbCommit])%list).
Proof.
  intros H message. subst message.
  unfold ChatRoutes.chat_reply, translation, try_except, bindM. rewrite H.
  unfold call, ret. fold session_id.
  destruct (String.eqb lang "en") eqn:E; cbn [negb].
  - apply String.eqb_eq in E. rewrite E, !translate_from_rasa_en.
    now rewrite <- !app_assoc.
  - now rewrite <- !app_assoc.
Qed.

(** The body of the inner [try] returns: none of its calls raises, and a
    successful answer of the adapter has a message. *)
Lemma answer_body_returns (t : list Event) :
  exists a t', ChatRoutes.answer_body w data message_text detected intent_result t
               = (Ok a, t').
Proof.
  unfold ChatRoutes.answer_body.
  destruct (Qle_bool (7 # 10) (confidence intent_result)); [eexists _, _; reflexivity|].
  unfold bindM, call, ret.
  destruct (r_success _) eqn:Hs; [|eexists _, _; reflexivity].
  destruct (r_message _) eqn:Hm; [eexists _, _; reflexivity|].
  exfalso. revert Hs Hm. unfold RasaService.send_message.
  destruct (requests_post _ _ _) as [e|status body]; [discriminate|].
  destruct (status =? 200)%Z; [|discriminate].
  destruct body as [[|first rest]|e]; discriminate.
Qed.

(** When the body returns, the route returns what the body returned. *)
Lemma send_message_returns (r : Response) (t : list Event) :
  ChatRoutes.route_body w (Some data) [] = (Ok r, t) ->
  ChatRoutes.send_message w (Some data) = (r, t).
Proof.
  intro H. unfold ChatRoutes.send_message. now rewrite H.
Qed.

Lemma preamble_calls :
  filter engine_call (preamble w data message_text) = []
  /\ filter generator_call (preamble w data message_text) = [].
Proof.
  unfold preamble. destruct (session_exists w _); split; reflexivity.
Qed.

End RouteFacts.

Lemma translation_calls (lang text : string) :
  filter engine_call (translation lang text) = []
  /\ filter generator_call (translation lang text) = [].
Proof.
  unfold translation. destruct (String.eqb lang "en"); split; reflexivity.
Qed.

(** C4: when the classifier finds the message not college related, the
    route answers with the fixed restricted message, which goes through the
    translator when the language of the answer is not English and is returned
    as it is otherwise; the answer is marked restricted; and the route has
    called neither the dialogue engine nor the response generator. *)
Theorem out_of_domain_is_restricted (w : World) (data : RequestData)
  (message_text : string) :
  message_of data message_text ->
  is_college_related (CollegeIntentClassifier.classify_intent (PyStr message_text))
  = false ->
  let lang :=
    ChatRoutes.language_of data (LanguageService.detect_language w message_text) in
  let message :=
    LanguageService.translate_from_rasa w ChatRoutes.restricted_response lang in
  let outcome := ChatRoutes.send_message w (Some data) in
  fst outcome
  = RestrictedReply
      (mkRestricted true message (ChatRoutes.session_of w data) lang
         (ChatRoutes.input_type_of data) "non_college_topic" true)
  /\ (lang = "en" -> message = ChatRoutes.restricted_response)
  /\ filter engine_call (snd outcome) = []
  /\ filter generator_call (snd outcome) = [].
Proof.
  intros Hmessage Hrel lang message outcome.
  pose proof (route_reaches_gate w data message_text Hmessage) as Hrun.
  rewrite Hrel in Hrun. cbn [negb] in Hrun. rewrite restricted_run in Hrun.
  apply send_message_returns in Hrun. subst outcome. rewrite Hrun. cbn [fst snd].
  split; [reflexivity|]. split.
  - intro H. subst message. rewrite H. reflexivity.
  - destruct (preamble_calls w data message_text) as [He Hg].
    destruct (translation_calls lang ChatRoutes.restricted_response) as [He' Hg'].
    rewrite !filter_app. fold lang. rewrite He, Hg, He', Hg'. split; reflexivity.
Qed.

Lemma out_of_domain_is_restricted_witness :
  let w := offline_world in
  let data := plain_request "  hello there " in
  message_of data "hello there"
  /\ is_college_related (CollegeIntentClassifier.classify_intent (PyStr "hello there"))
     = false
  /\ fst (ChatRoutes.send_message w (Some data))
     = RestrictedReply
         (mkRestricted true ChatRoutes.restricted_response (uuid4 w) "en" (Some "text")
            "non_college_topic" true)
  /\ filter engine_call (snd (ChatRoutes.send_message w (Some data))) = []
  /\ filter generator_call (snd (ChatRoutes.send_message w (Some data))) = [].
Proof.
  assert (Hm : message_of (plain_request "  hello there ") "hello there").
  { exists "  hello there ". repeat split. discriminate. }
  assert (Hr : is_college_related
                 (CollegeIntentClassifier.classify_intent (PyStr "hello there")) = false)
    by reflexivity.
  split; [exact Hm|]. split; [exact Hr|].
  destruct (out_of_domain_is_restricted offline_world
              (plain_request "  hello there ") "hello there" Hm Hr)
    as [H1 [_ [H2 H3]]].
  split; [exact H1|]. split; [exact H2 | exact H3].
Defined.

(** C3: for a message that is college related and classified with a
    confidence of 0.7 or more, 0.7 itself included, the route calls the
    response generator with the intent and the message, answers with what it
    generated (through the translator when the language of the answer is not
    English), reports the source college_ai with the intent and the confidence
    of the classifier, and does not call the dialogue engine. *)
Theorem high_confidence_is_local (w : World) (data : RequestData)
  (message_text : string) :
  message_of data message_text ->
  let intent_result := CollegeIntentClassifier.classify_intent (PyStr message_text) in
  is_college_related intent_result = true ->
  7 # 10 <= confidence intent_result ->
  let detected := LanguageService.detect_language w message_text in
  let lang := ChatRoutes.language_of data detected in
  let generated :=
    CollegeResponseGenerator.generate_response knowledge_base (intent intent_result)
      message_text in
  let outcome := ChatRoutes.send_message w (Some data) in
  fst outcome
  = ChatReply
      (mkChat true (LanguageService.translate_from_rasa w generated lang)
         (ChatRoutes.session_of w data) lang detected (ChatRoutes.input_type_of data)
         (Some (intent intent_result)) (Some (confidence intent_result)) (elapsed_ms w)
         "college_ai" (intent intent_result) (confidence intent_result))
  /\ filter generator_call (snd outcome)
     = [CallGenerateResponse (intent intent_result) message_text]
  /\ filter engine_call (snd outcome) = [].
Proof.
  intros Hmessage intent_result Hrel Hconf detected lang generated outcome.
  pose proof (route_reaches_gate w data message_text Hmessage) as Hrun.
  fold intent_result in Hrun. rewrite Hrel in Hrun. cbn [negb] in Hrun.
  apply Qle_bool_iff in Hconf.
  rewrite (chat_reply_run w data message_text _ _ _
             (answer_local w data message_text _ Hconf)) in Hrun.
  apply send_message_returns in Hrun. subst outcome. rewrite Hrun. cbn [fst snd].
  split; [reflexivity|].
  destruct (preamble_calls w data message_text) as [He Hg].
  cbn [ChatRoutes.bot_response_text].
  destruct (translation_calls (ChatRoutes.language_of data
                                 (LanguageService.detect_language w message_text))
              (CollegeResponseGenerator.generate_response knowledge_base
                 (intent (CollegeIntentClassifier.classify_intent (PyStr message_text)))
                 message_text)) as [He' Hg'].
  rewrite !filter_app, He, Hg, He', Hg'. split; reflexivity.
Qed.

Lemma high_confidence_is_local_witness :
  let w := offline_world in
  let data := plain_request "hostel accommodation available" in
  let intent_result :=
    CollegeIntentClassifier.classify_intent (PyStr "hostel accommodation available") in
  message_of data "hostel accommodation available"
  /\ is_college_related intent_result = true
  /\ confidence intent_result == 7 # 10
  /\ cr_response_source_of (fst (ChatRoutes.send_message w (Some data))) = Some "college_ai"
  /\ filter generator_call (snd (ChatRoutes.send_message w (Some data)))
     = [CallGenerateResponse "hostel_accommodation" "hostel accommodation available"]
  /\ filter engine_call (snd (ChatRoutes.send_message w (Some data))) = [].
Proof.
  assert (Hm : message_of (plain_request "hostel accommodation available")
                 "hostel accommodation available").
  { exists "hostel accommodation available". repeat split. discriminate. }
  assert (Hr : is_college_related
                 (CollegeIntentClassifier.classify_intent
                    (PyStr "hostel accommodation available")) = true)
    by reflexivity.
  assert (Hc : 7 # 10 <= confidence
                           (CollegeIntentClassifier.classify_intent
                              (PyStr "hostel accommodation available")))
    by (vm_compute; discriminate).
  split; [exact Hm|]. split; [exact Hr|]. split; [reflexivity|].
  destruct (high_confidence_is_local offline_world
              (plain_request "hostel accommodation available")
              "hostel accommodation available" Hm Hr Hc) as [H1 [H2 H3]].
  split; [rewrite H1; reflexivity|]. split; [exact H2 | exact H3].
Defined.

(** C5: for a message that is college related and classified with a
    confidence below 0.7, when the dialogue engine is not available (the
    request raises, on a connection error or a timeout; the status is not
    200; the payload is empty or unreadable), the route returns normally: it
    answers with the default response of the generator, which is not empty
    (through the translator when the language of the answer is not English),
    with the source college_ai_fallback, the intent fallback and the
    confidence 0.5. *)
Theorem engine_failure_falls_back (w : World) (data : RequestData)
  (message_text : string) :
  message_of data message_text ->
  let intent_result := CollegeIntentClassifier.classify_intent (PyStr message_text) in
  is_college_related intent_result = true ->
  confidence intent_result < 7 # 10 ->
  let detected := LanguageService.detect_language w message_text in
  let lang := ChatRoutes.language_of data detected in
  let payload :=
    mkPayload (ChatRoutes.session_of w data)
      (LanguageService.translate_for_rasa w message_text detected)
      (Some (mkMeta detected (ChatRoutes.input_type_of data)
               (ChatRoutes.get (req_user_id data)) (intent intent_result))) in
  engine_unavailable (requests_post w RasaService.webhook_endpoint payload) ->
  let default := CollegeResponseGenerator._generate_default_response in
  let message := LanguageService.translate_from_rasa w default lang in
  let outcome := ChatRoutes.send_message w (Some data) in
  fst outcome
  = ChatReply
      (mkChat true message (ChatRoutes.session_of w data) lang detected
         (ChatRoutes.input_type_of data) (Some "fallback") (Some (1 # 2)) (elapsed_ms w)
         "college_ai_fallback" (intent intent_result) (confidence intent_result))
  /\ default <> ""
  /\ (lang = "en"
      \/ (forall t, translator_translate w default "en" lang = Ok t -> t <> "") ->
      message <> "")
  /\ filter generator_call (snd outcome) = [CallDefaultResponse]
  /\ filter engine_call (snd outcome)
     = [CallRasa (payload_message payload) (sender payload) (payload_metadata payload)].
Proof.
  intros Hmessage intent_result Hrel Hconf detected lang payload Hdown default message
    outcome.
  pose proof (route_reaches_gate w data message_text Hmessage) as Hrun.
  fold intent_result in Hrun. rewrite Hrel in Hrun. cbn [negb] in Hrun.
  assert (Hlow : Qle_bool (7 # 10) (confidence intent_result) = false).
  { destruct (Qle_bool _ _) eqn:E; [|reflexivity].
    apply Qle_bool_iff in E. exfalso. exact (Qlt_not_le _ _ Hconf E). }
  apply adapter_reports_failure in Hdown.
  rewrite (chat_reply_run w data message_text _ _ _
             (answer_fallback w data message_text _ Hlow Hdown)) in Hrun.
  apply send_message_returns in Hrun. subst outcome. rewrite Hrun. cbn [fst snd].
  assert (Hdefault : default <> "") by discriminate.
  split; [reflexivity|]. split; [exact Hdefault|]. split.
  - subst message. unfold LanguageService.translate_from_rasa.
    intros [Hen|Htr].
    + rewrite Hen. exact Hdefault.
    + destruct (String.eqb lang "en"); [exact Hdefault|].
      destruct (translator_translate w default "en" lang) as [t|e] eqn:E;
        [now apply Htr | exact Hdefault].
  - destruct (preamble_calls w data message_text) as [He Hg].
    cbn [ChatRoutes.bot_response_text].
    destruct (translation_calls (ChatRoutes.language_of data
                                   (LanguageService.detect_language w message_text))
                CollegeResponseGenerator._generate_default_response) as [He' Hg'].
    rewrite !filter_app, He, Hg, He', Hg'. split; reflexivity.
Qed.

Lemma engine_failure_falls_back_witness :
  let w := offline_world in
  let data := plain_request "What is the fee for mtech" in
  let intent_result :=
    CollegeIntentClassifier.classify_intent (PyStr "What is the fee for mtech") in
  let outcome := ChatRoutes.send_message w (Some data) in
  message_of data "What is the fee for mtech"
  /\ is_college_related intent_result = true
  /\ confidence intent_result < 7 # 10
  /\ engine_unavailable
       (requests_post w RasaService.webhook_endpoint
          (mkPayload (uuid4 w) "What is the fee for mtech"
             (Some (mkMeta "en" (Some "text") None "fee_inquiry"))))
  /\ fst outcome
     = ChatReply
         (mkChat true CollegeResponseGenerator._generate_default_response (uuid4 w)
            "en" "en" (Some "text") (Some "fallback") (Some (1 # 2)) 12
            "college_ai_fallback" "fee_inquiry" (confidence intent_result))
  /\ CollegeResponseGenerator._generate_default_response <> ""
  /\ filter generator_call (snd outcome) = [CallDefaultResponse]
  /\ filter engine_call (snd outcome)
     = [CallRasa "What is the fee for mtech" (uuid4 w)
          (Some (mkMeta "en" (Some "text") None "fee_inquiry"))].
Proof.
  assert (Hm : message_of (plain_request "What is the fee for mtech")
                 "What is the fee for mtech").
  { exists "What is the fee for mtech". repeat split. discriminate. }
  assert (Hr : is_college_related
                 (CollegeIntentClassifier.classify_intent
                    (PyStr "What is the fee for mtech")) = true)
    by reflexivity.
  assert (Hc : confidence
                 (CollegeIntentClassifier.classify_intent
                    (PyStr "What is the fee for mtech")) < 7 # 10)
    by reflexivity.
  assert (Hd : engine_unavailable
                 (requests_post offline_world RasaService.webhook_endpoint
                    (mkPayload (uuid4 offline_world) "What is the fee for mtech"
                       (Some (mkMeta "en" (Some "text") None "fee_inquiry")))))
    by apply Unreachable.
  split; [exact Hm|]. split; [exact Hr|]. split; [exact Hc|]. split; [exact Hd|].
  destruct (engine_failure_falls_back offline_world
              (plain_request "What is the fee for mtech")
              "What is the fee for mtech" Hm Hr Hc Hd) as [H1 [H2 [_ [H3 H4]]]].
  split; [exact H1|]. split; [exact H2|]. split; [exact H3 | exact H4].
Defined.

(** * Further properties of the code *)

(** ** Strings: case and white space *)

Lemma lower_ascii_idem (c : ascii) :
  PyStr.lower_ascii (PyStr.lower_ascii c) = PyStr.lower_ascii c.
Proof.
  destruct c as [b0 b1 b2 b3 b4 b5 b6 b7].
  destruct b0, b1, b2, b3, b4, b5, b6, b7; reflexivity.
Qed.

Lemma lower_idem (s : string) : PyStr.lower (PyStr.lower s) = PyStr.lower s.
Proof.
  induction s as [|c s IH]; simpl; [reflexivity|].
  now rewrite lower_ascii_idem, IH.
Qed.

Lemma is_space_lower (c : ascii) :
  PyStr.is_space (PyStr.lower_ascii c) = PyStr.is_space c.
Proof.
  destruct c as [b0 b1 b2 b3 b4 b5 b6 b7].
  destruct b0, b1, b2, b3, b4, b5, b6, b7; reflexivity.
Qed.

Lemma all_space_lower (s : string) : all_space (PyStr.lower s) = all_space s.
Proof.
  induction s as [|c s IH]; simpl; [reflexivity|].
  now rewrite is_space_lower, IH.
Qed.

(** A string of white space has no word. *)
Lemma split_all_space (s : string) : all_space s = true -> PyStr.split s = [].
Proof.
  unfold PyStr.split. induction s as [|c s IH]; simpl; [reflexivity|].
  destruct (PyStr.is_space c); [exact IH | discriminate].
Qed.

Lemma lstrip_all_space (s : string) : all_space s = true -> PyStr.lstrip s = "".
Proof.
  induction s as [|c s IH]; simpl; [reflexivity|].
  destruct (PyStr.is_space c); [exact IH | discriminate].
Qed.

(** A string of white space strips to the empty string. *)
Lemma strip_all_space (s : string) : all_space s = true -> PyStr.strip s = "".
Proof.
  intro H. unfold PyStr.strip. now rewrite (lstrip_all_space s H).
Qed.

(** ** The intent classifier, further *)

Section MaxItem.
Import CollegeIntentClassifier.

Let step (best : option (string * Q)) (item : string * Q) : option (string * Q) :=
  match best with
  | None => Some item
  | Some b => if Qltb (snd b) (snd item) then Some item else best
  end.

(** What the fold of [max] keeps: the best item so far stands in what was
    read, after items of smaller score only and before items of score no
    greater. *)
Let kept (read : list (string * Q)) (best : option (string * Q)) : Prop :=
  match best with
  | None => read = []
  | Some b =>
      exists l1 l2, read = (l1 ++ b :: l2)%list
                    /\ Forall (fun x => snd x < snd b) l1
                    /\ Forall (fun x => snd x <= snd b) l2
  end.

Lemma kept_step (read : list (string * Q)) (best : option (string * Q))
  (item : string * Q) :
  kept read best -> kept (read ++ [item])%list (step best item).
Proof.
  destruct best as [b|]; simpl.
  - intros [l1 [l2 [-> [H1 H2]]]].
    destruct (Qltb (snd b) (snd item)) eqn:E.
    + apply Qltb_true in E. exists (l1 ++ b :: l2)%list, []. repeat split.
      * apply Forall_app. split.
        -- eapply Forall_impl; [|exact H1]. intros x Hx. simpl in Hx.
           eapply Qlt_trans; eassumption.
        -- constructor; [exact E|].
           eapply Forall_impl; [|exact H2]. intros x Hx. simpl in Hx.
           eapply Qle_lt_trans; eassumption.
      * constructor.
    + apply Qltb_false in E. exists l1, (l2 ++ [item])%list. repeat split.
      * now rewrite <- app_assoc.
      * exact H1.
      * apply Forall_app. split; [exact H2|]. now constructor.
  - intros ->. exists [], []. repeat split; constructor.
Qed.

Lemma kept_fold (items read : list (string * Q)) (best : option (string * Q)) :
  kept read best -> kept (read ++ items)%list (fold_left step items best).
Proof.
  revert read best. induction items as [|item items IH]; intros read best H; simpl.
  - now rewrite app_nil_r.
  - replace (read ++ item :: items)%list with ((read ++ [item]) ++ items)%list
      by now rewrite <- app_assoc.
    apply IH, kept_step, H.
Qed.

(** [max] returns the first of the items of greatest score. *)
Lemma max_item_first (items : list (string * Q)) (top : string * Q) :
  max_item items = Some top ->
  exists l1 l2, items = (l1 ++ top :: l2)%list
                /\ Forall (fun x => snd x < snd top) l1
                /\ Forall (fun x => snd x <= snd top) l2.
Proof.
  intro H. pose proof (kept_fold items [] None eq_refl) as K.
  unfold max_item in H. fold step in H. rewrite H in K. exact K.
Qed.

Lemma max_item_greatest (items : list (string * Q)) (top x : string * Q) :
  max_item items = Some top -> In x items -> snd x <= snd top.
Proof.
  intros H Hx. apply max_item_first in H. destruct H as [l1 [l2 [-> [H1 H2]]]].
  rewrite Forall_forall in H1, H2.
  apply in_app_or in Hx. destruct Hx as [Hx|[<-|Hx]].
  - apply Qlt_le_weak. auto.
  - apply Qle_refl.
  - auto.
Qed.

Lemma max_item_none (items : list (string * Q)) :
  max_item items = None -> items = [].
Proof.
  intro H. pose proof (kept_fold items [] None eq_refl) as K.
  unfold max_item in H. fold step in H. rewrite H in K. exact K.
Qed.
End MaxItem.

Lemma clamp_threshold (x : Q) : 3 # 10 <= Qmin (x / 10) 1 <-> 3 # 10 <= x / 10.
Proof.
  rewrite Q.min_glb_iff. split; [tauto|]. intro H. split; [exact H|]. discriminate.
Qed.

Lemma div10_le (a b : Q) : a <= b -> a / 10 <= b / 10.
Proof. intro H. unfold Qdiv. apply Qmult_le_compat_r; [exact H | discriminate]. Qed.

(** X1: the confidence that [classify_intent] returns lies between 0 and 1
    for every argument; it is at least 0.3 when the result is college related
    and 0 when it is not. *)
Theorem classify_confidence_range (text : pyval) :
  let r := CollegeIntentClassifier.classify_intent text in
  (0 <= confidence r /\ confidence r <= 1)
  /\ (is_college_related r = true -> 3 # 10 <= confidence r)
  /\ (is_college_related r = false -> confidence r = 0).
Proof.
  unfold CollegeIntentClassifier.classify_intent, CollegeIntentClassifier.classify_body.
  destruct (py_lower text) as [text_lower|e]; simpl.
  2: { repeat split; try discriminate. }
  unfold CollegeIntentClassifier.decide.
  assert (Hgeneral :
            forall scores,
              let r := if PyStr.any_in CollegeIntentClassifier.college_keywords text_lower
                       then mkCls "general_college_inquiry" (1 # 2) (Some scores) None true
                       else mkCls "unknown" 0 (Some scores) None false in
              (0 <= confidence r /\ confidence r <= 1)
              /\ (is_college_related r = true -> 3 # 10 <= confidence r)
              /\ (is_college_related r = false -> confidence r = 0)).
  { intro scores. destruct (PyStr.any_in _ _); simpl;
      repeat split; try discriminate. }
  destruct (CollegeIntentClassifier.max_item _) as [top|]; [|apply Hgeneral].
  destruct (Qle_bool (3 # 10) (Qmin (snd top / 10) 1)) eqn:E; [|apply Hgeneral].
  apply Qle_bool_iff in E. simpl. repeat split.
  - apply Qle_trans with (3 # 10); [discriminate | exact E].
  - apply Q.le_min_r.
  - intros _. exact E.
  - discriminate.
Qed.

(** X2: the gate.  A text is classified as college related exactly when some
    intent scores at least 0.3 once divided by 10, or the lower-cased text
    holds one of the general words college, university, student, education,
    academic. *)
Theorem classify_gate (text : string) :
  let text_lower := PyStr.lower text in
  is_college_related (CollegeIntentClassifier.classify_intent (PyStr text)) = true
  <-> (exists i s, In (i, s) (CollegeIntentClassifier.intent_scores text_lower)
                   /\ 3 # 10 <= s / 10)
      \/ PyStr.any_in CollegeIntentClassifier.college_keywords text_lower = true.
Proof.
  intro text_lower.
  unfold CollegeIntentClassifier.classify_intent, CollegeIntentClassifier.classify_body.
  simpl py_lower. fold text_lower. unfold CollegeIntentClassifier.decide.
  destruct (CollegeIntentClassifier.max_item _) as [[i top]|] eqn:Hmax.
  - simpl snd. destruct (Qle_bool (3 # 10) (Qmin (top / 10) 1)) eqn:E.
    + apply Qle_bool_iff, clamp_threshold in E. cbn [is_college_related].
      split; [intros _|reflexivity].
      left. exists i, top. split; [|exact E]. now apply max_item_In.
    + assert (Hlow : ~ 3 # 10 <= top / 10).
      { intro H. apply clamp_threshold, Qle_bool_iff in H. congruence. }
      destruct (PyStr.any_in _ _); cbn [is_college_related]; split;
        try tauto; try discriminate.
      intros [[j [s [Hin Hs]]]|H]; [|discriminate].
      exfalso. apply Hlow. apply Qle_trans with (s / 10); [exact Hs|].
      apply div10_le. exact (max_item_greatest _ _ _ Hmax Hin).
  - apply max_item_none in Hmax. discriminate Hmax.
Qed.

(** X3: ties go to the earliest intent.  When some intent reaches the
    threshold, the intent returned is the first of those of greatest score in
    the order of [college_intents]: every intent before it scores strictly
    less, every intent after it no more; and the confidence is that score
    divided by 10, capped at 1. *)
Theorem classify_picks_first_maximum (text : string) :
  let scores := CollegeIntentClassifier.intent_scores (PyStr.lower text) in
  let r := CollegeIntentClassifier.classify_intent (PyStr text) in
  (exists i s, In (i, s) scores /\ 3 # 10 <= s / 10) ->
  exists l1 l2 top,
    scores = (l1 ++ (intent r, top) :: l2)%list
    /\ Forall (fun x => snd x < top) l1
    /\ Forall (fun x => snd x <= top) l2
    /\ confidence r = Qmin (top / 10) 1
    /\ is_college_related r = true.
Proof.
  intros scores r [i [s [Hin Hs]]].
  destruct (CollegeIntentClassifier.max_item scores) as [[j top]|] eqn:Hmax.
  2: { apply max_item_none in Hmax. rewrite Hmax in Hin. destruct Hin. }
  assert (E : Qle_bool (3 # 10) (Qmin (top / 10) 1) = true).
  { apply Qle_bool_iff, clamp_threshold. apply Qle_trans with (s / 10); [exact Hs|].
    apply div10_le. exact (max_item_greatest _ _ _ Hmax Hin). }
  assert (Hr : r = mkCls j (Qmin (top / 10) 1) (Some scores) None true).
  { subst r.
    unfold CollegeIntentClassifier.classify_intent,
      CollegeIntentClassifier.classify_body.
    simpl py_lower. unfold CollegeIntentClassifier.decide. fold scores.
    rewrite Hmax. simpl snd. rewrite E. reflexivity. }
  rewrite Hr. cbn [is_college_related confidence intent].
  destruct (max_item_first _ _ Hmax) as [l1 [l2 [H0 [H1 H2]]]].
  exists l1, l2, top. auto.
Qed.

Lemma classify_picks_first_maximum_witness :
  let scores := CollegeIntentClassifier.intent_scores (PyStr.lower "Course fee") in
  let r := CollegeIntentClassifier.classify_intent (PyStr "Course fee") in
  (exists i s, In (i, s) scores /\ 3 # 10 <= s / 10)
  /\ intent r = "fee_inquiry"
  /\ exists l1 l2 top,
       scores = (l1 ++ (intent r, top) :: l2)%list
       /\ Forall (fun x => snd x < top) l1
       /\ Forall (fun x => snd x <= top) l2
       /\ confidence r = Qmin (top / 10) 1
       /\ is_college_related r = true.
Proof.
  assert (H : exists i s,
             In (i, s) (CollegeIntentClassifier.intent_scores (PyStr.lower "Course fee"))
             /\ 3 # 10 <= s / 10).
  { exists "course_information", (0 + inject_Z 3). split.
    - vm_compute. right. right. left. reflexivity.
    - vm_compute. discriminate. }
  split; [exact H|]. split; [reflexivity|].
  exact (classify_picks_first_maximum "Course fee" H).
Defined.

Section ScoreFacts.
Context {A : Type}.
Variable p : A -> bool.
Variable bonus : Q.
Hypothesis bonus_nonneg : 0 <= bonus.

Let add (score : Q) (x : A) : Q := if p x then score + bonus else score.

(** A loop that adds a bonus that is not negative does not lower the
    score. *)
Lemma fold_bonus_ge (l : list A) (acc : Q) : acc <= fold_left add l acc.
Proof.
  revert acc. induction l as [|x l IH]; intro acc; simpl; [apply Qle_refl|].
  eapply Qle_trans; [|apply IH]. unfold add. destruct (p x); lra.
Qed.

Lemma fold_bonus_hit (l : list A) (acc : Q) (x : A) :
  In x l -> p x = true -> acc + bonus <= fold_left add l acc.
Proof.
  revert acc. induction l as [|y l IH]; intros acc Hin Hp; [destruct Hin|].
  simpl. destruct Hin as [->|Hin].
  - eapply Qle_trans; [|apply fold_bonus_ge]. unfold add. rewrite Hp. lra.
  - eapply Qle_trans; [|apply (IH _ Hin Hp)]. unfold add. destruct (p y); lra.
Qed.
End ScoreFacts.

Lemma score_intent_keyword (d : IntentData) (text_lower keyword : string) :
  (0 <= weight d)%Z -> In keyword (keywords d) ->
  PyStr.str_in keyword text_lower = true ->
  inject_Z (weight d) <= CollegeIntentClassifier.score_intent d text_lower.
Proof.
  intros Hw Hin Hfound. unfold CollegeIntentClassifier.score_intent.
  assert (H0 : 0 <= inject_Z (weight d)).
  { change 0 with (inject_Z 0). now rewrite <- Zle_Qle. }
  assert (H1 : 0 <= inject_Z (weight d) * (3 # 2)) by lra.
  pose proof (fold_bonus_hit (fun k => PyStr.str_in k text_lower) (inject_Z (weight d))
                H0 (keywords d) 0 keyword Hin Hfound) as Hk.
  eapply Qle_trans;
    [|apply (fold_bonus_ge (fun pattern => Re.search pattern text_lower)
               (inject_Z (weight d) * (3 # 2)) H1)].
  eapply Qle_trans; [|exact Hk]. lra.
Qed.

Lemma college_intents_weights :
  Forall (fun e : string * IntentData => (0 <= weight (snd e))%Z) college_intents.
Proof. repeat constructor; discriminate. Qed.

(** X4: a text that holds a keyword of an intent gives that intent a score
    of at least the weight of the intent. *)
Theorem keyword_scores_weight (text name keyword : string) (d : IntentData) :
  In (name, d) college_intents ->
  In keyword (keywords d) ->
  PyStr.str_in keyword (PyStr.lower text) = true ->
  exists score,
    In (name, score) (CollegeIntentClassifier.intent_scores (PyStr.lower text))
    /\ inject_Z (weight d) <= score.
Proof.
  intros Hd Hk Hfound.
  exists (CollegeIntentClassifier.score_intent d (PyStr.lower text)). split.
  - unfold CollegeIntentClassifier.intent_scores.
    apply in_map_iff. exists (name, d). split; [reflexivity | exact Hd].
  - apply (score_intent_keyword d (PyStr.lower text) keyword);
      [|exact Hk | exact Hfound].
    pose proof college_intents_weights as Hw. rewrite Forall_forall in Hw.
    exact (Hw _ Hd).
Qed.

Lemma keyword_scores_weight_witness :
  let d := mkIntent
             ["fee"; "cost"; "price"; "payment"; "scholarship"; "installment"; "tuition"]
             [ RSeq (RLit "how much ") (RAlt (RLit "does it cost") (RLit "fees"));
               RLit "fee structure";
               RLit "total cost" ]
             3 in
  In ("fee_inquiry", d) college_intents
  /\ In "scholarship" (keywords d)
  /\ PyStr.str_in "scholarship" (PyStr.lower "Is there a Scholarship?") = true
  /\ exists score,
       In ("fee_inquiry", score)
         (CollegeIntentClassifier.intent_scores (PyStr.lower "Is there a Scholarship?"))
       /\ inject_Z 3 <= score.
Proof.
  intro d.
  assert (H1 : In ("fee_inquiry", d) college_intents) by (right; left; reflexivity).
  assert (H2 : In "scholarship" (keywords d)) by (simpl; tauto).
  assert (H3 : PyStr.str_in "scholarship" (PyStr.lower "Is there a Scholarship?") = true)
    by reflexivity.
  split; [exact H1|]. split; [exact H2|]. split; [exact H3|].
  exact (keyword_scores_weight "Is there a Scholarship?" "fee_inquiry" "scholarship" d
           H1 H2 H3).
Defined.

(** X5: [classify_intent] does not see the case of ASCII letters: a text and
    its lower-cased form are classified alike, and so are two texts that
    differ in case only. *)
Theorem classify_ignores_case (text : string) :
  CollegeIntentClassifier.classify_intent (PyStr (PyStr.lower text))
  = CollegeIntentClassifier.classify_intent (PyStr text)
  /\ forall text', PyStr.lower text' = PyStr.lower text ->
                   CollegeIntentClassifier.classify_intent (PyStr text')
                   = CollegeIntentClassifier.classify_intent (PyStr text).
Proof.
  unfold CollegeIntentClassifier.classify_intent, CollegeIntentClassifier.classify_body.
  simpl py_lower. split.
  - now rewrite lower_idem.
  - intros text' H. now rewrite H.
Qed.

(** ** The knowledge store, further *)

Lemma dict_get_In {V : Type} (k : string) (v : V) (d : list (string * V)) :
  NoDup (Dict.keys d) -> In (k, v) d -> Dict.get k d = Some v.
Proof.
  induction d as [|[k' v'] d IH]; simpl; intros Hnd Hin; [destruct Hin|].
  inversion Hnd as [|? ? Hnot Hnd']; subst.
  destruct Hin as [[= -> ->]|Hin].
  - now rewrite String.eqb_refl.
  - destruct (String.eqb k k') eqn:E.
    + apply String.eqb_eq in E. subst k'. exfalso. apply Hnot.
      unfold Dict.keys. apply in_map_iff. exists (k, v). auto.
    + apply IH; assumption.
Qed.

Lemma entries_In (kb : Store) (c s : string) (d : json) :
  In (c, s, d) (entries kb) <-> exists cd, In (c, cd) kb /\ In (s, d) cd.
Proof.
  unfold entries. rewrite in_flat_map. split.
  - intros [[c' cd] [Hc H]]. apply in_map_iff in H. destruct H as [[s' d'] [[= <- <- <-] Hs]].
    exists cd. auto.
  - intros [cd [Hc Hs]]. exists (c, cd). split; [exact Hc|].
    apply in_map_iff. exists (s, d). auto.
Qed.

(** X6: in a store whose dictionaries have no repeated key, every entry
    that the search visits under a subcategory name that is not empty is the
    entry that [get_information] returns for its category and subcategory. *)
Theorem lookup_round_trip (kb : Store) (c s : string) (d : json) :
  NoDup (Dict.keys kb) ->
  (forall c' cd, In (c', cd) kb -> NoDup (Dict.keys cd)) ->
  In (c, s, d) (entries kb) ->
  s <> "" ->
  CollegeKnowledgeBase.get_information kb c (Some s)
  = mkInfo true (Some d) (Some c) (Some s) None None.
Proof.
  intros Hkb Hcd Hin Hs. apply entries_In in Hin. destruct Hin as [cd [Hc Hsd]].
  unfold CollegeKnowledgeBase.get_information.
  rewrite (dict_get_In c cd kb Hkb Hc). simpl.
  apply String.eqb_neq in Hs. rewrite Hs. simpl.
  now rewrite (dict_get_In s d cd (Hcd c cd Hc) Hsd).
Qed.

Lemma knowledge_base_keys :
  NoDup (Dict.keys knowledge_base)
  /\ forall c cd, In (c, cd) knowledge_base -> NoDup (Dict.keys cd).
Proof.
  split.
  - repeat (apply NoDup_cons; [simpl; intuition discriminate|]). apply NoDup_nil.
  - intros c cd H. simpl in H.
    repeat (destruct H as [[= <- <-]|H];
            [repeat (apply NoDup_cons; [simpl; intuition discriminate|]);
             apply NoDup_nil|]).
    destruct H.
Qed.

Lemma lookup_round_trip_witness :
  NoDup (Dict.keys knowledge_base)
  /\ (forall c cd, In (c, cd) knowledge_base -> NoDup (Dict.keys cd))
  /\ In ("placement_stats", "overall_percentage", JInt 95) (entries knowledge_base)
  /\ "overall_percentage" <> ""
  /\ CollegeKnowledgeBase.get_information knowledge_base "placement_stats"
       (Some "overall_percentage")
     = mkInfo true (Some (JInt 95)) (Some "placement_stats") (Some "overall_percentage")
         None None.
Proof.
  destruct knowledge_base_keys as [H1 H2].
  assert (H3 : In ("placement_stats", "overall_percentage", JInt 95)
                 (entries knowledge_base)).
  { apply entries_In. eexists. split.
    - right. right. right. left. reflexivity.
    - left. reflexivity. }
  assert (H4 : "overall_percentage" <> "") by discriminate.
  split; [exact H1|]. split; [exact H2|]. split; [exact H3|]. split; [exact H4|].
  exact (lookup_round_trip knowledge_base "placement_stats" "overall_percentage"
           (JInt 95) H1 H2 H3 H4).
Defined.

Lemma flat_map_nil {A B : Type} (f : A -> list B) (l : list A) :
  (forall a, In a l -> f a = []) -> flat_map f l = [].
Proof.
  induction l as [|a l IH]; intro H; simpl; [reflexivity|].
  rewrite (H a (or_introl eq_refl)), IH; [reflexivity|].
  intros b Hb. apply H. now right.
Qed.

(** X7: a query with no word, empty or of white space only, finds
    nothing. *)
Theorem search_blank_query (kb : Store) (query : string) :
  all_space query = true -> CollegeKnowledgeBase.search_information kb query = [].
Proof.
  intro H. unfold CollegeKnowledgeBase.search_information.
  assert (Hc : CollegeKnowledgeBase.collect kb query = []).
  { unfold CollegeKnowledgeBase.collect. apply flat_map_nil. intros [c cd] _.
    apply flat_map_nil. intros [s d] _. unfold CollegeKnowledgeBase.scan_entry.
    rewrite <- all_space_lower in H. now rewrite (split_all_space _ H). }
  now rewrite Hc.
Qed.

Lemma search_blank_query_witness :
  all_space "   " = true
  /\ CollegeKnowledgeBase.search_information knowledge_base "   " = [].
Proof.
  split; [reflexivity|]. apply (search_blank_query knowledge_base "   "). reflexivity.
Defined.

Lemma ratio_range (m n : nat) :
  (1 <= m <= n)%nat ->
  0 < CollegeKnowledgeBase.ratio m n /\ CollegeKnowledgeBase.ratio m n <= 1.
Proof.
  intros [Hm Hn]. unfold CollegeKnowledgeBase.ratio.
  assert (Hpos : 0 < inject_Z (Z.of_nat n)).
  { change 0 with (inject_Z 0). rewrite <- Zlt_Qlt. lia. }
  split.
  - apply Qlt_shift_div_l; [exact Hpos|]. rewrite Qmult_0_l.
    change 0 with (inject_Z 0). rewrite <- Zlt_Qlt. lia.
  - apply Qle_shift_div_r; [exact Hpos|]. rewrite Qmult_1_l.
    rewrite <- Zle_Qle. lia.
Qed.

(** X8: the relevance of every hit that [search_information] returns is
    greater than 0 and at most 1. *)
Theorem search_relevance_range (kb : Store) (query : string) :
  Forall (fun h => 0 < relevance_score h /\ relevance_score h <= 1)
         (CollegeKnowledgeBase.search_information kb query).
Proof.
  apply Forall_forall. intros h H.
  unfold CollegeKnowledgeBase.search_information in H.
  apply firstn_incl, sort_desc_In, collect_hit in H.
  destruct H as [cd [_ [_ [Hm ->]]]].
  apply ratio_range. split; [exact Hm | apply matched_words].
Qed.

Lemma sorted_app_inv {A : Type} (R : A -> A -> Prop) (l1 l2 : list A) :
  StronglySorted R (l1 ++ l2)%list ->
  forall a b, In a l1 -> In b l2 -> R a b.
Proof.
  induction l1 as [|x l1 IH]; simpl; intros H a b Ha Hb; [destruct Ha|].
  inversion H as [|? ? Hs Hx]; subst. destruct Ha as [<-|Ha].
  - rewrite Forall_forall in Hx. apply Hx. apply in_or_app. now right.
  - now apply IH.
Qed.

(** X9: the hits returned are the most relevant of the entries with a
    match: the entries found split into the hits and a rest, no entry of the
    rest is more relevant than a hit, and when at most 5 entries are found
    there is no rest. *)
Theorem search_returns_best (kb : Store) (query : string) :
  let found := CollegeKnowledgeBase.collect kb query in
  let hits := CollegeKnowledgeBase.search_information kb query in
  exists rest,
    Permutation (hits ++ rest) found
    /\ (forall h h', In h hits -> In h' rest ->
                     relevance_score h' <= relevance_score h)
    /\ ((length found <= 5)%nat -> rest = []).
Proof.
  intros found hits. subst hits. unfold CollegeKnowledgeBase.search_information.
  fold found. exists (skipn 5 (sort_desc relevance_score found)). split; [|split].
  - rewrite firstn_skipn. apply sort_desc_Permutation.
  - apply (sorted_app_inv (fun a b => relevance_score b <= relevance_score a)).
    rewrite firstn_skipn. apply sort_desc_sorted.
  - intro H. apply skipn_all2.
    now rewrite (Permutation_length (sort_desc_Permutation relevance_score found)).
Qed.

(** X10: [search_information] does not see the case of ASCII letters in the
    query. *)
Theorem search_ignores_case (kb : Store) (query : string) :
  CollegeKnowledgeBase.search_information kb (PyStr.lower query)
  = CollegeKnowledgeBase.search_information kb query
  /\ forall query', PyStr.lower query' = PyStr.lower query ->
                    CollegeKnowledgeBase.search_information kb query'
                    = CollegeKnowledgeBase.search_information kb query.
Proof.
  unfold CollegeKnowledgeBase.search_information, CollegeKnowledgeBase.collect. split.
  - now rewrite lower_idem.
  - intros query' H. now rewrite H.
Qed.

(** ** Substrings *)

Lemma prefix_app (w t : string) : String.prefix w (w ++ t) = true.
Proof.
  induction w as [|c w IH]; simpl; [now destruct t|].
  destruct (ascii_dec c c); [exact IH | congruence].
Qed.

Lemma str_in_prefix (w t : string) : String.prefix w t = true -> PyStr.str_in w t = true.
Proof. intro H. destruct t; cbn [PyStr.str_in]; now rewrite H. Qed.

Lemma str_in_skip (w a t : string) :
  PyStr.str_in w t = true -> PyStr.str_in w (a ++ t) = true.
Proof.
  intro H. induction a as [|c a IH]; [exact H|].
  change (String c a ++ t) with (String c (a ++ t)). cbn [PyStr.str_in].
  rewrite IH. now destruct (String.prefix w (String c (a ++ t))).
Qed.

(** The text inserted in a template is a substring of the result. *)
Lemma str_in_middle (w a b : string) : PyStr.str_in w (a ++ w ++ b) = true.
Proof. apply str_in_skip, str_in_prefix, prefix_app. Qed.

(** ** The response generator, further *)

Lemma bind_ok {A B : Type} (c : exc A) (k : A -> exc B) (r : B) :
  bind c k = Ok r -> exists a, c = Ok a /\ k a = Ok r.
Proof. destruct c as [a|e]; simpl; [eauto | discriminate]. Qed.

Ltac bind_inv H :=
  repeat (apply bind_ok in H; let a := fresh "a" in let E := fresh "E" in
          destruct H as [a [E H]]).

Lemma extract_course_cases (query : string) :
  let course := CollegeResponseGenerator._extract_course_from_query query in
  course = "btech" \/ course = "mtech" \/ course = "mba".
Proof.
  unfold CollegeResponseGenerator._extract_course_from_query.
  destruct (PyStr.any_in _ _); [tauto|].
  destruct (PyStr.any_in _ _); [tauto|].
  destruct (PyStr.any_in _ _); tauto.
Qed.

Section GeneratorFacts.
Import CollegeResponseGenerator.
Variable kb : Store.

(** Each generator that returns, returns a text that is not empty. *)
Lemma admission_text (r : string) : _generate_admission_response kb = Ok r -> r <> "".
Proof.
  unfold _generate_admission_response. destruct (success _); intro H.
  - bind_inv H. injection H as <-. discriminate.
  - injection H as <-. discriminate.
Qed.

Lemma course_text (course r : string) : _generate_course_response kb course = Ok r -> r <> "".
Proof.
  unfold _generate_course_response. destruct (success _); intro H.
  - bind_inv H. injection H as <-. discriminate.
  - injection H as <-. discriminate.
Qed.

Lemma fee_text (course r : string) : _generate_fee_response kb course = Ok r -> r <> "".
Proof.
  unfold _generate_fee_response. destruct (success _); intro H.
  - bind_inv H. injection H as <-. discriminate.
  - injection H as <-. discriminate.
Qed.

Lemma placement_text (r : string) : _generate_placement_response kb = Ok r -> r <> "".
Proof.
  unfold _generate_placement_response. destruct (success _); intro H.
  - bind_inv H. injection H as <-. discriminate.
  - injection H as <-. discriminate.
Qed.

Lemma hostel_text_not_empty (r : string) : _generate_hostel_response kb = Ok r -> r <> "".
Proof.
  unfold _generate_hostel_response. destruct (success _); intro H.
  - bind_inv H. injection H as <-. discriminate.
  - injection H as <-. discriminate.
Qed.

Lemma facilities_text_not_empty (r : string) :
  _generate_facilities_response kb = Ok r -> r <> "".
Proof.
  unfold _generate_facilities_response. destruct (success _); intro H.
  - bind_inv H. injection H as <-. discriminate.
  - injection H as <-. discriminate.
Qed.

Lemma generate_body_text (intent query r : string) :
  generate_body kb intent query = Ok r -> r <> "".
Proof.
  unfold generate_body.
  destruct (String.eqb intent "admission_inquiry"); [apply admission_text|].
  destruct (String.eqb intent "course_information"); [apply course_text|].
  destruct (String.eqb intent "fee_inquiry"); [apply fee_text|].
  destruct (String.eqb intent "placement_inquiry"); [apply placement_text|].
  destruct (String.eqb intent "hostel_accommodation"); [apply hostel_text_not_empty|].
  destruct (String.eqb intent "campus_facilities"); [apply facilities_text_not_empty|].
  destruct (CollegeKnowledgeBase.search_information kb query);
    intro H; injection H as <-; discriminate.
Qed.
End GeneratorFacts.

(** X11: whatever the store, the intent and the query, [generate_response]
    returns a text that is not empty: the text of a template, of a search, the
    default text, or the apology that stands for an exception. *)
Theorem generate_response_not_empty (kb : Store) (intent query : string) :
  CollegeResponseGenerator.generate_response kb intent query <> "".
Proof.
  unfold CollegeResponseGenerator.generate_response.
  destruct (CollegeResponseGenerator.generate_body kb intent query) as [r|e] eqn:E.
  - exact (generate_body_text kb intent query r E).
  - discriminate.
Qed.

(** X12: on the store of the source no generator raises: for every intent
    and query the body of [generate_response] returns, so the apology for an
    exception is never the answer. *)
Theorem shipped_store_never_raises (intent query : string) :
  exists r, CollegeResponseGenerator.generate_body knowledge_base intent query = Ok r.
Proof.
  unfold CollegeResponseGenerator.generate_body.
  destruct (String.eqb intent "admission_inquiry"); [eexists; reflexivity|].
  destruct (String.eqb intent "course_information").
  { destruct (extract_course_cases query) as [-> | [-> | ->]]; eexists; reflexivity. }
  destruct (String.eqb intent "fee_inquiry").
  { destruct (extract_course_cases query) as [-> | [-> | ->]]; eexists; reflexivity. }
  destruct (String.eqb intent "placement_inquiry"); [eexists; reflexivity|].
  destruct (String.eqb intent "hostel_accommodation"); [eexists; reflexivity|].
  destruct (String.eqb intent "campus_facilities"); [eexists; reflexivity|].
  destruct (CollegeKnowledgeBase.search_information knowledge_base query);
    eexists; reflexivity.
Qed.

(** X13: the fee response quotes the course it looked up.  In any store
    where the course that the query names is a subcategory of courses with a
    full name and a fee range, the response for the intent fee_inquiry is the
    fee template filled with the two, and it holds both as substrings. *)
Theorem fee_response_quotes_range (kb : Store) (query : string)
  (cd fields : list (string * json)) (full_name fee_range : string) :
  Dict.get "courses" kb = Some cd ->
  Dict.get (CollegeResponseGenerator._extract_course_from_query query) cd
  = Some (JDict fields) ->
  Dict.get "full_name" fields = Some (JStr full_name) ->
  Dict.get "fee_range" fields = Some (JStr fee_range) ->
  let response := CollegeResponseGenerator.generate_response kb "fee_inquiry" query in
  response = CollegeResponseGenerator.fee_inquiry_template full_name fee_range
  /\ PyStr.str_in fee_range response = true
  /\ PyStr.str_in full_name response = true.
Proof.
  intros Hcat Hcourse Hname Hfee response.
  assert (Hr : response
               = CollegeResponseGenerator.fee_inquiry_template full_name fee_range).
  { subst response.
    unfold CollegeResponseGenerator.generate_response,
      CollegeResponseGenerator.generate_body.
    simpl String.eqb. cbv iota.
    unfold CollegeResponseGenerator._generate_fee_response,
      CollegeKnowledgeBase.get_information.
    rewrite Hcat.
    assert (Ht : CollegeKnowledgeBase.truthy
                   (Some (CollegeResponseGenerator._extract_course_from_query query))
                 = true).
    { destruct (extract_course_cases query) as [-> | [-> | ->]]; reflexivity. }
    rewrite Ht, Hcourse. simpl. rewrite Hname, Hfee. reflexivity. }
  rewrite Hr. split; [reflexivity|].
  unfold CollegeResponseGenerator.fee_inquiry_template. split.
  - apply str_in_skip, str_in_skip, str_in_skip, str_in_prefix, prefix_app.
  - apply str_in_skip, str_in_prefix, prefix_app.
Qed.

Lemma fee_response_quotes_range_witness :
  let response :=
    CollegeResponseGenerator.generate_response knowledge_base "fee_inquiry"
      "How much are the MBA fees?" in
  CollegeResponseGenerator._extract_course_from_query "How much are the MBA fees?" = "mba"
  /\ response
     = CollegeResponseGenerator.fee_inquiry_template "Master of Business Administration"
         "3-5 lakh per year"
  /\ PyStr.str_in "3-5 lakh per year" response = true
  /\ PyStr.str_in "Master of Business Administration" response = true.
Proof.
  split; [reflexivity|].
  eapply (fee_response_quotes_range knowledge_base "How much are the MBA fees?");
    reflexivity.
Defined.

(** X14: the fee generator answers with the text that refers to the accounts
    office exactly when the store has no category courses.  A course that is
    not in the category does not lead there, since the lookup then returns the
    whole category. *)
Theorem fee_office_text_iff (kb : Store) (course : string) :
  CollegeResponseGenerator._generate_fee_response kb course
  = Ok "Please contact our accounts office for detailed fee information."
  <-> Dict.mem "courses" kb = false.
Proof.
  unfold CollegeResponseGenerator._generate_fee_response. split.
  - intro H. destruct (Dict.mem "courses" kb) eqn:Hmem; [|reflexivity]. exfalso.
    assert (Hs : success (CollegeKnowledgeBase.get_information kb "courses" (Some course))
                 = true).
    { unfold CollegeKnowledgeBase.get_information. unfold Dict.mem in Hmem.
      destruct (Dict.get "courses" kb); [|discriminate].
      destruct (CollegeKnowledgeBase.truthy (Some course)); [|reflexivity].
      destruct (Dict.get course l); reflexivity. }
    rewrite Hs in H. bind_inv H. injection H as H. discriminate H.
  - intro Hmem. apply dict_mem_get in Hmem.
    unfold CollegeKnowledgeBase.get_information. now rewrite Hmem.
Qed.

(** X15: a course that is no subcategory of courses makes the course
    generator raise a [KeyError], not answer that it has no information about
    the course: the lookup returns the whole category, which has no key
    specializations. *)
Theorem unknown_course_raises (kb : Store) (course : string)
  (cd : list (string * json)) :
  Dict.get "courses" kb = Some cd ->
  Dict.mem course cd = false ->
  Dict.mem "specializations" cd = false ->
  CollegeResponseGenerator._generate_course_response kb course = Raise "KeyError"
  /\ forall query,
       CollegeResponseGenerator._extract_course_from_query query = course ->
       CollegeResponseGenerator.generate_response kb "course_information" query
       = "I apologize, but I'm having trouble processing your request right now. Please try asking about specific topics like admissions, courses, fees, or placements.".
Proof.
  intros Hcat Hcourse Hspec.
  assert (H : CollegeResponseGenerator._generate_course_response kb course
              = Raise "KeyError").
  { unfold CollegeResponseGenerator._generate_course_response,
      CollegeKnowledgeBase.get_information.
    rewrite Hcat. apply dict_mem_get in Hcourse, Hspec.
    destruct (CollegeKnowledgeBase.truthy (Some course)); rewrite ?Hcourse; simpl;
      now rewrite Hspec. }
  split; [exact H|]. intros query Hq.
  unfold CollegeResponseGenerator.generate_response,
    CollegeResponseGenerator.generate_body.
  simpl String.eqb. cbv iota. now rewrite Hq, H.
Qed.

Lemma unknown_course_raises_witness :
  (exists cd, Dict.get "courses" knowledge_base = Some cd
              /\ Dict.mem "phd" cd = false
              /\ Dict.mem "specializations" cd = false)
  /\ CollegeResponseGenerator._generate_course_response knowledge_base "phd"
     = Raise "KeyError".
Proof.
  split.
  - eexists. repeat split; reflexivity.
  - eapply (unknown_course_raises knowledge_base "phd"); reflexivity.
Defined.

(** X16: an intent without a generator of its own is answered from the
    search: with the default text exactly when the search finds nothing, and
    with the text built from the hits otherwise. *)
Theorem other_intents_use_search (kb : Store) (intent query : string) :
  ~ In intent dedicated_intents ->
  let hits := CollegeKnowledgeBase.search_information kb query in
  let response := CollegeResponseGenerator.generate_response kb intent query in
  (hits = [] <-> response = CollegeResponseGenerator._generate_default_response)
  /\ (hits <> [] ->
      response = CollegeResponseGenerator._generate_search_based_response hits query).
Proof.
  intros Hnot hits response. subst response.
  unfold CollegeResponseGenerator.generate_response,
    CollegeResponseGenerator.generate_body.
  assert (Hne : forall name, In name dedicated_intents -> String.eqb intent name = false).
  { intros name Hin. apply String.eqb_neq. intros ->. contradiction. }
  rewrite !Hne by (simpl; tauto).
  fold hits. destruct hits as [|h hits']; split.
  - tauto.
  - intro H. now contradiction H.
  - split; [discriminate|]. intro H. exfalso.
    unfold CollegeResponseGenerator._generate_search_based_response in H.
    discriminate H.
  - reflexivity.
Qed.

Lemma other_intents_use_search_witness :
  ~ In "faculty_information" dedicated_intents
  /\ CollegeKnowledgeBase.search_information knowledge_base "zzz" = []
  /\ CollegeResponseGenerator.generate_response knowledge_base "faculty_information" "zzz"
     = CollegeResponseGenerator._generate_default_response.
Proof.
  assert (H : ~ In "faculty_information" dedicated_intents).
  { simpl. intuition discriminate. }
  split; [exact H|]. split; [reflexivity|].
  apply (other_intents_use_search knowledge_base "faculty_information" "zzz" H).
  reflexivity.
Defined.

(** ** The language service and the adapter, further *)

(** X17: [detect_language] returns one of the supported languages, whatever
    the translator detects and whether or not it raises. *)
Theorem detect_language_supported (w : World) (text : string) :
  In (LanguageService.detect_language w text) LanguageService.supported_languages.
Proof.
  unfold LanguageService.detect_language.
  destruct (translator_detect w text) as [lang|e]; [|now left].
  destruct (existsb (String.eqb lang) LanguageService.supported_languages) eqn:E;
    [|now left].
  apply existsb_exists in E. destruct E as [x [Hx E]].
  apply String.eqb_eq in E. now subst.
Qed.

(** X18: the shape of what the adapter returns.  A success has a message,
    which is the text of the first message of the engine (or "No response"
    when that has none), and no error; a failure has an error and no message,
    intent or confidence. *)
Theorem adapter_result_shape (w : World) (message sender_id : string)
  (metadata : option Metadata) :
  let r := RasaService.send_message w message sender_id metadata in
  (r_success r = true ->
   r_error r = None
   /\ exists first rest,
        requests_post w RasaService.webhook_endpoint
          (mkPayload sender_id message metadata)
        = PostReturns 200 (Ok (first :: rest))
        /\ r_message r = Some (match text first with
                               | Some t => t
                               | None => "No response"
                               end))
  /\ (r_success r = false ->
      r_message r = None /\ r_intent r = None /\ r_confidence r = None
      /\ exists e, r_error r = Some e).
Proof.
  unfold RasaService.send_message.
  destruct (requests_post _ _ _) as [e|status body].
  - split; [discriminate|]. intros _. simpl. eauto 6.
  - destruct (status =? 200)%Z eqn:E.
    + apply Z.eqb_eq in E. subst status.
      destruct body as [[|first rest]|e]; simpl; split; try discriminate; eauto 8.
    + split; [discriminate|]. intros _. simpl. eauto 6.
Qed.

(** ** The route [/message], further *)

Lemma adapter_success_message (w : World) (message sender_id : string)
  (metadata : option Metadata) :
  r_success (RasaService.send_message w message sender_id metadata) = true ->
  exists m, r_message (RasaService.send_message w message sender_id metadata) = Some m.
Proof.
  unfold RasaService.send_message.
  destruct (requests_post _ _ _) as [e|status body]; [discriminate|].
  destruct (status =? 200)%Z; [|discriminate].
  destruct body as [[|first rest]|e]; try discriminate. simpl. eauto.
Qed.

Lemma request_cases (data : RequestData) :
  req_message data = Absent
  \/ req_message data = Null
  \/ (exists m, req_message data = Val m /\ PyStr.strip m = "")
  \/ exists message_text, message_of data message_text.
Proof.
  destruct (req_message data) as [| |m] eqn:E; [tauto | tauto |].
  destruct (String.eqb (PyStr.strip m) "") eqn:Hs.
  - apply String.eqb_eq in Hs. right. right. left. eauto.
  - apply String.eqb_neq in Hs. right. right. right.
    exists (PyStr.strip m). exists m. auto.
Qed.

Section RouteCases.
Variable w : World.
Variable data : RequestData.
Variable message_text : string.

Let intent_result : Classification :=
  CollegeIntentClassifier.classify_intent (PyStr message_text).
Let detected : string := LanguageService.detect_language w message_text.
Let lang : string := ChatRoutes.language_of data detected.
Let session_id : string := ChatRoutes.session_of w data.
Let rasa_message : string := LanguageService.translate_for_rasa w message_text detected.
Let metadata : option Metadata :=
  Some (mkMeta detected (ChatRoutes.input_type_of data)
          (ChatRoutes.get (req_user_id data)) (intent intent_result)).

(** The branch of the inner [try] in which the engine answers. *)
Lemma answer_engine (t : list Event) :
  Qle_bool (7 # 10) (confidence intent_result) = false ->
  r_success (RasaService.send_message w rasa_message session_id metadata) = true ->
  exists m,
    r_message (RasaService.send_message w rasa_message session_id metadata) = Some m
    /\ ChatRoutes.answer_body w data message_text detected intent_result t
       = (Ok (ChatRoutes.mkAnswer m
                (Some (ChatRoutes.or_str
                         (r_intent (RasaService.send_message w rasa_message session_id
                                      metadata))
                         (intent intent_result)))
                (Some (ChatRoutes.or_num
                         (r_confidence (RasaService.send_message w rasa_message
                                          session_id metadata))
                         (confidence intent_result)))
                "rasa"),
          (t ++ [CallTranslateForRasa message_text detected;
                 CallRasa rasa_message session_id metadata])%list).
Proof.
  intros Hlow Hok.
  destruct (adapter_success_message w rasa_message session_id metadata Hok)
    as [m Hm].
  exists m. split; [exact Hm|].
  unfold ChatRoutes.answer_body. rewrite Hlow. unfold bindM, call, ret.
  fold session_id. fold rasa_message. fold metadata. rewrite Hok, Hm.
  now rewrite <- !app_assoc.
Qed.

(** What the inner [try] does, in each of its three branches: the calls it
    adds and the source it reports. *)
Lemma answer_body_cases (t : list Event) :
  exists a calls,
    ChatRoutes.answer_body w data message_text detected intent_result t
    = (Ok a, (t ++ calls)%list)
    /\ (length (filter engine_call calls) <= 1)%nat
    /\ (length (filter generator_call calls) <= 1)%nat
    /\ In (ChatRoutes.response_source a) ["college_ai"; "rasa"; "college_ai_fallback"]
    /\ (ChatRoutes.response_source a = "college_ai"
        <-> 7 # 10 <= confidence intent_result)
    /\ filter db_call calls = [].
Proof.
  destruct (Qle_bool (7 # 10) (confidence intent_result)) eqn:Hconf.
  - eexists _, _. split; [apply (answer_local w data message_text t Hconf)|].
    apply Qle_bool_iff in Hconf. simpl. repeat split; auto.
  - assert (Hlow : ~ 7 # 10 <= confidence intent_result).
    { intro H. apply Qle_bool_iff in H. congruence. }
    destruct (r_success (RasaService.send_message w rasa_message session_id metadata))
      eqn:Hok.
    + destruct (answer_engine t Hconf Hok) as [m [Hm Hrun]].
      eexists _, _. split; [exact Hrun|]. simpl.
      repeat split; auto; try discriminate; tauto.
    + eexists _, _. split; [apply (answer_fallback w data message_text t Hconf Hok)|].
      simpl. repeat split; auto; try discriminate; tauto.
Qed.

(** A request with a message that is college related is answered by
    [chat_reply]: the answer and the whole list of calls. *)
Lemma send_message_chat :
  message_of data message_text ->
  is_college_related intent_result = true ->
  exists a calls,
    ChatRoutes.send_message w (Some data)
    = (ChatReply
         (mkChat true
            (LanguageService.translate_from_rasa w (ChatRoutes.bot_response_text a) lang)
            session_id lang detected (ChatRoutes.input_type_of data)
            (ChatRoutes.answer_intent a) (ChatRoutes.answer_confidence a) (elapsed_ms w)
            (ChatRoutes.response_source a) (intent intent_result)
            (confidence intent_result)),
       (preamble w data message_text ++ calls
          ++ translation lang (ChatRoutes.bot_response_text a)
          ++ [DbAdd (BotMessageRow session_id
                       (LanguageService.translate_from_rasa w
                          (ChatRoutes.bot_response_text a) lang));
              DbTouchSession session_id;
              DbAdd (AnalyticsRow session_id (ChatRoutes.response_source a));
              DbCommit])%list)
    /\ (length (filter engine_call calls) <= 1)%nat
    /\ (length (filter generator_call calls) <= 1)%nat
    /\ In (ChatRoutes.response_source a) ["college_ai"; "rasa"; "college_ai_fallback"]
    /\ (ChatRoutes.response_source a = "college_ai"
        <-> 7 # 10 <= confidence intent_result)
    /\ filter db_call calls = [].
Proof.
  intros Hmessage Hrel.
  pose proof (route_reaches_gate w data message_text Hmessage) as Hrun.
  unfold intent_result in Hrel. rewrite Hrel in Hrun. cbn [negb] in Hrun.
  destruct (answer_body_cases (preamble w data message_text))
    as [a [calls [Ha Hprops]]].
  rewrite (chat_reply_run w data message_text _ _ _ Ha) in Hrun.
  apply send_message_returns in Hrun.
  exists a, calls. split; [|exact Hprops].
  rewrite Hrun. now rewrite <- !app_assoc.
Qed.

(** A request with a message that is not college related is answered by
    [restricted]. *)
Lemma send_message_restricted :
  message_of data message_text ->
  is_college_related intent_result = false ->
  ChatRoutes.send_message w (Some data)
  = (RestrictedReply
       (mkRestricted true
          (LanguageService.translate_from_rasa w ChatRoutes.restricted_response lang)
          session_id lang (ChatRoutes.input_type_of data) "non_college_topic" true),
     (preamble w data message_text
        ++ translation lang ChatRoutes.restricted_response
        ++ [DbAdd (BotMessageRow session_id
                     (LanguageService.translate_from_rasa w
                        ChatRoutes.restricted_response lang));
            DbCommit])%list).
Proof.
  intros Hmessage Hrel.
  pose proof (route_reaches_gate w data message_text Hmessage) as Hrun.
  unfold intent_result in Hrel. rewrite Hrel in Hrun. cbn [negb] in Hrun.
  rewrite restricted_run in Hrun. now apply send_message_returns in Hrun.
Qed.
End RouteCases.

Lemma send_message_invalid (w : World) :
  ChatRoutes.send_message w None = (BadRequest "Message is required", [])
  /\ (forall data, req_message data = Absent ->
        ChatRoutes.send_message w (Some data) = (BadRequest "Message is required", []))
  /\ (forall data m, req_message data = Val m -> PyStr.strip m = "" ->
        ChatRoutes.send_message w (Some data)
        = (BadRequest "Message cannot be empty", []))
  /\ (forall data, req_message data = Null ->
        ChatRoutes.send_message w (Some data)
        = (ServerError "Internal server error" ChatRoutes.server_error_message,
           [DbRollback])).
Proof.
  unfold ChatRoutes.send_message, ChatRoutes.route_body.
  split; [reflexivity|]. split; [|split].
  - intros data H. now rewrite H.
  - intros data m H Hs. now rewrite H, Hs.
  - intros data H. now rewrite H.
Qed.


(** X20: for a message that is college related and classified with a
    confidence below 0.7, when the engine answers with status 200 and a list
    of messages that is not empty, the route answers with the text of the
    first message ("No response" when it has none), through the translator
    when the language of the answer is not English, and reports the source
    rasa; the intent and the confidence are those of the engine, or those of
    the classifier where the engine gives none; the generator is not
    called. *)
Theorem engine_answer_is_used (w : World) (data : RequestData) (message_text : string)
  (first : EngineMessage) (rest : list EngineMessage) :
  message_of data message_text ->
  let intent_result := CollegeIntentClassifier.classify_intent (PyStr message_text) in
  is_college_related intent_result = true ->
  confidence intent_result < 7 # 10 ->
  let detected := LanguageService.detect_language w message_text in
  let lang := ChatRoutes.language_of data detected in
  let payload :=
    mkPayload (ChatRoutes.session_of w data)
      (LanguageService.translate_for_rasa w message_text detected)
      (Some (mkMeta detected (ChatRoutes.input_type_of data)
               (ChatRoutes.get (req_user_id data)) (intent intent_result))) in
  requests_post w RasaService.webhook_endpoint payload
  = PostReturns 200 (Ok (first :: rest)) ->
  let engine_text := match text first with Some t => t | None => "No response" end in
  let engine_name :=
    match engine_intent first with Some i => name i | None => None end in
  let engine_conf :=
    match engine_intent first with Some i => engine_confidence i | None => None end in
  let outcome := ChatRoutes.send_message w (Some data) in
  fst outcome
  = ChatReply
      (mkChat true (LanguageService.translate_from_rasa w engine_text lang)
         (ChatRoutes.session_of w data) lang detected (ChatRoutes.input_type_of data)
         (Some (ChatRoutes.or_str engine_name (intent intent_result)))
         (Some (ChatRoutes.or_num engine_conf (confidence intent_result)))
         (elapsed_ms w) "rasa" (intent intent_result) (confidence intent_result))
  /\ filter generator_call (snd outcome) = []
  /\ filter engine_call (snd outcome)
     = [CallRasa (payload_message payload) (sender payload) (payload_metadata payload)].
Proof.
  intros Hmessage intent_result Hrel Hconf detected lang payload Hpost engine_text
    engine_name engine_conf outcome.
  assert (Hrun : ChatRoutes.route_body w (Some data) []
                 = ChatRoutes.chat_reply w data message_text detected lang intent_result
                     (preamble w data message_text)).
  { rewrite (route_reaches_gate w data message_text Hmessage).
    unfold intent_result in Hrel. now rewrite Hrel. }
  assert (Hlow : Qle_bool (7 # 10) (confidence intent_result) = false).
  { destruct (Qle_bool _ _) eqn:E; [|reflexivity].
    apply Qle_bool_iff in E. exfalso. exact (Qlt_not_le _ _ Hconf E). }
  assert (Hres : RasaService.send_message w
                   (LanguageService.translate_for_rasa w message_text detected)
                   (ChatRoutes.session_of w data)
                   (Some (mkMeta detected (ChatRoutes.input_type_of data)
                            (ChatRoutes.get (req_user_id data)) (intent intent_result)))
                 = mkRasa true (Some engine_text) engine_name engine_conf None).
  { unfold RasaService.send_message. fold payload. now rewrite Hpost. }
  assert (Hbody : ChatRoutes.answer_body w data message_text detected intent_result
                    (preamble w data message_text)
                  = (Ok (ChatRoutes.mkAnswer engine_text
                           (Some (ChatRoutes.or_str engine_name (intent intent_result)))
                           (Some (ChatRoutes.or_num engine_conf
                                    (confidence intent_result)))
                           "rasa"),
                     (preamble w data message_text
                        ++ [CallTranslateForRasa message_text detected;
                            CallRasa (payload_message payload) (sender payload)
                              (payload_metadata payload)])%list)).
  { unfold ChatRoutes.answer_body. rewrite Hlow. unfold bindM, call, ret.
    fold detected. rewrite Hres. cbn [r_success r_message r_intent r_confidence].
    now rewrite <- !app_assoc. }
  pose proof (eq_trans Hrun (chat_reply_run w data message_text _ _ _ Hbody)) as Hfinal.
  apply send_message_returns in Hfinal. subst outcome. rewrite Hfinal. cbn [fst snd].
  split; [reflexivity|].
  destruct (preamble_calls w data message_text) as [He Hg].
  cbn [ChatRoutes.bot_response_text].
  subst lang detected engine_text payload intent_result.
  destruct (translation_calls
              (ChatRoutes.language_of data
                 (LanguageService.detect_language w message_text))
              (match text first with Some t => t | None => "No response" end))
    as [He' Hg'].
  rewrite !filter_app, He, Hg, He', Hg'. split; reflexivity.
Qed.

Lemma engine_answer_is_used_witness :
  let w := answering (PostReturns 200
                        (Ok [mkEngineMessage (Some "Fees are paid by semester.") None])) in
  let data := plain_request "What is the fee for mtech" in
  let intent_result :=
    CollegeIntentClassifier.classify_intent (PyStr "What is the fee for mtech") in
  let outcome := ChatRoutes.send_message w (Some data) in
  message_of data "What is the fee for mtech"
  /\ is_college_related intent_result = true
  /\ confidence intent_result < 7 # 10
  /\ fst outcome
     = ChatReply
         (mkChat true "Fees are paid by semester." (uuid4 w) "en" "en" (Some "text")
            (Some "fee_inquiry") (Some (confidence intent_result)) 12 "rasa"
            "fee_inquiry" (confidence intent_result))
  /\ filter generator_call (snd outcome) = []
  /\ filter engine_call (snd outcome)
     = [CallRasa "What is the fee for mtech" (uuid4 w)
          (Some (mkMeta "en" (Some "text") None "fee_inquiry"))].
Proof.
  assert (Hm : message_of (plain_request "What is the fee for mtech")
                 "What is the fee for mtech").
  { exists "What is the fee for mtech". repeat split. discriminate. }
  assert (Hr : is_college_related
                 (CollegeIntentClassifier.classify_intent
                    (PyStr "What is the fee for mtech")) = true)
    by reflexivity.
  assert (Hc : confidence
                 (CollegeIntentClassifier.classify_intent
                    (PyStr "What is the fee for mtech")) < 7 # 10)
    by reflexivity.
  split; [exact Hm|]. split; [exact Hr|]. split; [exact Hc|].
  exact (engine_answer_is_used
           (answering (PostReturns 200
                         (Ok [mkEngineMessage (Some "Fees are paid by semester.") None])))
           (plain_request "What is the fee for mtech") "What is the fee for mtech"
           (mkEngineMessage (Some "Fees are paid by semester.") None) []
           Hm Hr Hc eq_refl).
Defined.

Lemma filter_length_app {A : Type} (p : A -> bool) (l1 l2 : list A) :
  length (filter p (l1 ++ l2)) = (length (filter p l1) + length (filter p l2))%nat.
Proof. now rewrite filter_app, length_app. Qed.

(** X21: no retry.  For every request, whatever the world answers, the
    route calls the dialogue engine at most once and the response generator
    at most once. *)
Theorem engine_called_at_most_once (w : World) (request_json : option RequestData) :
  let trace := snd (ChatRoutes.send_message w request_json) in
  (length (filter engine_call trace) <= 1)%nat
  /\ (length (filter generator_call trace) <= 1)%nat.
Proof.
  destruct (send_message_invalid w) as [H1 [H2 [H3 H4]]].
  destruct request_json as [data|]; [|rewrite H1; simpl; lia].
  destruct (request_cases data) as [H|[H|[[m [H Hs]]|[message_text Hm]]]].
  - rewrite (H2 data H). simpl. lia.
  - rewrite (H4 data H). simpl. lia.
  - rewrite (H3 data m H Hs). simpl. lia.
  - destruct (preamble_calls w data message_text) as [He Hg].
    destruct (is_college_related
                (CollegeIntentClassifier.classify_intent (PyStr message_text))) eqn:Hrel.
    + destruct (send_message_chat w data message_text Hm Hrel)
        as [a [calls [Hrun [Hec [Hgc _]]]]].
      rewrite Hrun. cbn [snd].
      destruct (translation_calls
                  (ChatRoutes.language_of data
                     (LanguageService.detect_language w message_text))
                  (ChatRoutes.bot_response_text a)) as [He' Hg'].
      rewrite !filter_length_app, He, Hg, He', Hg'. simpl. lia.
    + rewrite (send_message_restricted w data message_text Hm Hrel). cbn [snd].
      destruct (translation_calls
                  (ChatRoutes.language_of data
                     (LanguageService.detect_language w message_text))
                  ChatRoutes.restricted_response) as [He' Hg'].
      rewrite !filter_length_app, He, Hg, He', Hg'. simpl. lia.
Qed.

(** X22: the sources a reply can report.  A reply of the chat kind reports
    college_ai, rasa or college_ai_fallback, and college_ai exactly when the
    confidence of the classifier is 0.7 or more; the sources rasa_fallback and
    error_fallback of the handler of the inner [try] are never reported, since
    nothing in that [try] raises. *)
Theorem reply_sources (w : World) (request_json : option RequestData)
  (c : ChatResponse) :
  fst (ChatRoutes.send_message w request_json) = ChatReply c ->
  In (cr_response_source c) ["college_ai"; "rasa"; "college_ai_fallback"]
  /\ (cr_response_source c = "college_ai" <-> 7 # 10 <= cr_college_confidence c)
  /\ cr_success c = true.
Proof.
  destruct (send_message_invalid w) as [H1 [H2 [H3 H4]]].
  destruct request_json as [data|]; [|rewrite H1; discriminate].
  destruct (request_cases data) as [H|[H|[[m [H Hs]]|[message_text Hm]]]].
  - rewrite (H2 data H). discriminate.
  - rewrite (H4 data H). discriminate.
  - rewrite (H3 data m H Hs). discriminate.
  - destruct (is_college_related
                (CollegeIntentClassifier.classify_intent (PyStr message_text))) eqn:Hrel.
    + destruct (send_message_chat w data message_text Hm Hrel)
        as [a [calls [Hrun [_ [_ [Hsrc [Hiff _]]]]]]].
      rewrite Hrun. cbn [fst]. intros [= <-]. cbn. auto.
    + rewrite (send_message_restricted w data message_text Hm Hrel). discriminate.
Qed.

Lemma reply_sources_witness :
  let outcome :=
    ChatRoutes.send_message offline_world
      (Some (plain_request "Is there a hostel mess and room?")) in
  (exists c, fst outcome = ChatReply c
             /\ cr_response_source c = "college_ai_fallback"
             /\ ~ 7 # 10 <= cr_college_confidence c).
Proof.
  eexists. split; [reflexivity|].
  destruct (reply_sources offline_world
              (Some (plain_request "Is there a hostel mess and room?")) _ eq_refl)
    as [_ [Hiff _]].
  split; [reflexivity|]. intro H. apply Hiff in H. discriminate H.
Defined.

(** X23: an answer is stored before it is returned.  A reply with status 200
    has the row of its message and session among the calls, and the commit is
    the last call; a refusal with status 400 has made no call; an answer with
    status 500 ends with the rollback and has no commit. *)
Theorem reply_is_committed (w : World) (request_json : option RequestData) :
  let trace := snd (ChatRoutes.send_message w request_json) in
  match fst (ChatRoutes.send_message w request_json) with
  | ChatReply c =>
      In (DbAdd (BotMessageRow (cr_session_id c) (cr_message c))) trace
      /\ (exists t, trace = (t ++ [DbCommit])%list) /\ ~ In DbRollback trace
  | RestrictedReply r =>
      In (DbAdd (BotMessageRow (rs_session_id r) (rs_message r))) trace
      /\ (exists t, trace = (t ++ [DbCommit])%list) /\ ~ In DbRollback trace
  | BadRequest _ => trace = []
  | ServerError _ _ =>
      (exists t, trace = (t ++ [DbRollback])%list) /\ ~ In DbCommit trace
  end.
Proof.
  destruct (send_message_invalid w) as [H1 [H2 [H3 H4]]].
  assert (Hpre : forall data message_text,
             ~ In DbRollback (preamble w data message_text)).
  { intros data message_text. unfold preamble.
    destruct (session_exists w _); simpl; intuition discriminate. }
  assert (Htr : forall lang text, ~ In DbRollback (translation lang text)).
  { intros lang text. unfold translation.
    destruct (String.eqb lang "en"); simpl; intuition discriminate. }
  destruct request_json as [data|]; [|rewrite H1; reflexivity].
  destruct (request_cases data) as [H|[H|[[m [H Hs]]|[message_text Hm]]]].
  - rewrite (H2 data H). reflexivity.
  - rewrite (H4 data H). cbn. split; [exists []; reflexivity | intuition discriminate].
  - rewrite (H3 data m H Hs). reflexivity.
  - destruct (is_college_related
                (CollegeIntentClassifier.classify_intent (PyStr message_text))) eqn:Hrel.
    + destruct (send_message_chat w data message_text Hm Hrel)
        as [a [calls [Hrun [_ [_ [_ [_ Hdb]]]]]]].
      rewrite Hrun. cbn [fst snd cr_session_id cr_message]. split; [|split].
      * apply in_or_app. right. apply in_or_app. right. apply in_or_app. right.
        now left.
      * eexists. rewrite !app_assoc.
        change [DbAdd ?a; DbTouchSession ?b; DbAdd ?c; DbCommit]
          with ([DbAdd a; DbTouchSession b; DbAdd c] ++ [DbCommit])%list.
        rewrite app_assoc. reflexivity.
      * intro Hin. apply in_app_or in Hin. destruct Hin as [Hin|Hin];
          [exact (Hpre _ _ Hin)|].
        apply in_app_or in Hin. destruct Hin as [Hin|Hin].
        -- assert (Hf : In DbRollback (filter db_call calls))
             by (apply filter_In; split; [exact Hin | reflexivity]).
           rewrite Hdb in Hf. destruct Hf.
        -- apply in_app_or in Hin. destruct Hin as [Hin|Hin]; [exact (Htr _ _ Hin)|].
           simpl in Hin. intuition discriminate.
    + rewrite (send_message_restricted w data message_text Hm Hrel).
      cbn [fst snd rs_session_id rs_message]. split; [|split].
      * apply in_or_app. right. apply in_or_app. right. now left.
      * eexists. rewrite !app_assoc.
        change [DbAdd ?a; DbCommit] with ([DbAdd a] ++ [DbCommit])%list.
        rewrite app_assoc. reflexivity.
      * intro Hin. apply in_app_or in Hin. destruct Hin as [Hin|Hin];
          [exact (Hpre _ _ Hin)|].
        apply in_app_or in Hin. destruct Hin as [Hin|Hin]; [exact (Htr _ _ Hin)|].
        simpl in Hin. intuition discriminate.
Qed.

(** ** The other routes *)


(** X25: the topics of [/suggestions] are tried in a fixed order.  A query
    of fewer than 2 characters, once stripped, gets the first five popular
    suggestions; a longer one gets the suggestions of the first topic,
    among admission, fee, course and placement, that has a word in the
    lower-cased query, and the four general suggestions when none has. *)
Theorem suggestions_topic_order (q : string) :
  let partial_query := PyStr.strip q in
  let query_lower := PyStr.lower partial_query in
  let answer := CollegeRoutes.get_query_suggestions (Some (Val q)) in
  let admission := PyStr.any_in ["admission"; "apply"] query_lower in
  let fee := PyStr.any_in ["fee"; "cost"; "price"] query_lower in
  let course := PyStr.any_in ["course"; "program"] query_lower in
  let placement := PyStr.any_in ["placement"; "job"] query_lower in
  ((py_len partial_query < 2)%nat ->
   answer = CollegeRoutes.SuggestionList (firstn 5 CollegeRoutes.popular_suggestions))
  /\ ((2 <= py_len partial_query)%nat ->
      (admission = true -> answer = CollegeRoutes.SuggestionList CollegeRoutes.admission_suggestions)
      /\ (admission = false -> fee = true ->
          answer = CollegeRoutes.SuggestionList CollegeRoutes.fee_suggestions)
      /\ (admission = false -> fee = false -> course = true ->
          answer = CollegeRoutes.SuggestionList CollegeRoutes.course_suggestions)
      /\ (admission = false -> fee = false -> course = false -> placement = true ->
          answer = CollegeRoutes.SuggestionList CollegeRoutes.placement_suggestions)
      /\ (admission = false -> fee = false -> course = false -> placement = false ->
          answer = CollegeRoutes.SuggestionList CollegeRoutes.fallback_suggestions)).
Proof.
  intros partial_query query_lower answer admission fee course placement.
  subst answer.
  unfold CollegeRoutes.get_query_suggestions, CollegeRoutes.suggestions_for.
  simpl CollegeRoutes.query_of. cbn [bind]. fold partial_query. fold query_lower.
  fold admission. fold fee. fold course. fold placement. split.
  - intro H. apply Nat.ltb_lt in H. now rewrite H.
  - intro H. apply Nat.ltb_ge in H. rewrite H.
    repeat split; intros; subst admission fee course placement;
      repeat match goal with E : PyStr.any_in _ _ = _ |- _ => rewrite E; clear E end;
      reflexivity.
Qed.

Example suggestions_one_character :
  CollegeRoutes.get_query_suggestions (Some (Val " f "))
  = CollegeRoutes.SuggestionList (firstn 5 CollegeRoutes.popular_suggestions).
Proof. reflexivity. Qed.

Example suggestions_apply_before_fee :
  CollegeRoutes.get_query_suggestions (Some (Val "fee to APPLY"))
  = CollegeRoutes.SuggestionList CollegeRoutes.admission_suggestions.
Proof. reflexivity. Qed.

(** X26: [/college-info/<category>] answers 404 exactly for a category that
    the store does not have, with the names of the categories of the store,
    and 200 for every other; it never fails with status 500.  The answer with
    status 200 repeats the subcategory of the request, also when that is not
    a subcategory of the category and the data is the whole category. *)
Theorem college_info_route (kb : Store) (category : string) (subcategory : option string) :
  let answer := CollegeRoutes.get_college_information kb category subcategory in
  (Dict.mem category kb = false ->
   answer = CollegeRoutes.InfoNotFound ("Category " ++ category ++ " not found") (Dict.keys kb))
  /\ (forall cd, Dict.get category kb = Some cd ->
        exists d,
          answer = CollegeRoutes.InfoOk category subcategory d
          /\ ((exists s, subcategory = Some s /\ s <> "" /\ Dict.get s cd = Some d)
              \/ (d = JDict cd
                  /\ match subcategory with
                     | Some s => s = "" \/ Dict.mem s cd = false
                     | None => True
                     end)))
  /\ (forall e, answer <> CollegeRoutes.InfoFailure e).
Proof.
  intro answer. subst answer.
  unfold CollegeRoutes.get_college_information, CollegeKnowledgeBase.get_information.
  split; [|split].
  - intro H. apply dict_mem_get in H. now rewrite H.
  - intros cd H. rewrite H.
    destruct subcategory as [s|]; simpl; [|eexists; split; [reflexivity | tauto]].
    destruct (String.eqb s "") eqn:Es; simpl.
    + apply String.eqb_eq in Es. eexists. split; [reflexivity | tauto].
    + apply String.eqb_neq in Es.
      destruct (Dict.get s cd) as [d|] eqn:Ed; simpl.
      * exists d. split; [reflexivity|]. left. exists s. auto.
      * eexists. split; [reflexivity|]. right. split; [reflexivity|].
        right. now apply dict_mem_get.
  - intro e. destruct (Dict.get category kb) as [cd|]; [|discriminate].
    destruct (if CollegeKnowledgeBase.truthy subcategory then subcategory else None)
      as [s|]; [|discriminate].
    destruct (Dict.get s cd); discriminate.
Qed.


Lemma search_route_blank (kb : Store) (q : string) :
  all_space q = true ->
  CollegeRoutes.search_college_information kb (Some (Val q))
  = CollegeRoutes.SearchBadRequest "Search query is required".
Proof.
  intro H. unfold CollegeRoutes.search_college_information. simpl.
  now rewrite (strip_all_space q H).
Qed.

(** ** The stand-alone backend *)

(** X28: the adapter of [app.py] names the cause of a failure in its
    message.  A connection error, another exception, a status other than 200
    and an empty list give four messages that differ from one another,
    whatever the exception and the status; the source connection_error marks
    the connection error alone. *)
Theorem app_adapter_causes (w1 w2 w3 w4 : AppWorld) (message : string)
  (sender_id : option string) (e : string) (status : Z)
  (body : exc (list EngineMessage)) :
  let payload := mkAppPayload sender_id message in
  app_post w1 App.webhook_url payload = AppConnectionError ->
  app_post w2 App.webhook_url payload = AppRaises e ->
  app_post w3 App.webhook_url payload = AppReturns status body ->
  status <> 200%Z ->
  app_post w4 App.webhook_url payload = AppReturns 200 (Ok []) ->
  let r1 := App.send_message w1 message sender_id in
  let r2 := App.send_message w2 message sender_id in
  let r3 := App.send_message w3 message sender_id in
  let r4 := App.send_message w4 message sender_id in
  (app_success r1 = false /\ app_success r2 = false
   /\ app_success r3 = false /\ app_success r4 = false)
  /\ (app_source r1 = "connection_error" /\ app_source r2 = "error"
      /\ app_source r3 = "error" /\ app_source r4 = "error")
  /\ app_message r3 = "AI server error: " ++ PyStr.of_int status
  /\ (app_message r1 <> app_message r2 /\ app_message r1 <> app_message r3
      /\ app_message r1 <> app_message r4 /\ app_message r2 <> app_message r3
      /\ app_message r2 <> app_message r4 /\ app_message r3 <> app_message r4).
Proof.
  intros payload H1 H2 H3 Hs H4 r1 r2 r3 r4. subst r1 r2 r3 r4.
  unfold App.send_message. fold payload. rewrite H1, H2, H3, H4.
  apply Z.eqb_neq in Hs. rewrite Hs. simpl.
  repeat split; discriminate.
Qed.

Lemma app_adapter_causes_witness :
  let world (o : AppPostOutcome) := mkAppWorld (fun _ _ => o) (fun _ => GetRaises) "now" in
  let r1 := App.send_message (world AppConnectionError) "hi" (Some "u") in
  let r2 := App.send_message (world (AppRaises "timed out")) "hi" (Some "u") in
  let r3 := App.send_message (world (AppReturns 502 (Raise "no JSON"))) "hi" (Some "u") in
  let r4 := App.send_message (world (AppReturns 200 (Ok []))) "hi" (Some "u") in
  app_message r3 = "AI server error: 502"
  /\ (app_message r1 <> app_message r2 /\ app_message r1 <> app_message r3
      /\ app_message r1 <> app_message r4 /\ app_message r2 <> app_message r3
      /\ app_message r2 <> app_message r4 /\ app_message r3 <> app_message r4).
Proof.
  intro world.
  destruct (app_adapter_causes (world AppConnectionError) (world (AppRaises "timed out"))
              (world (AppReturns 502 (Raise "no JSON")))
              (world (AppReturns 200 (Ok []))) "hi" (Some "u") "timed out" 502
              (Raise "no JSON") eq_refl eq_refl eq_refl ltac:(discriminate) eq_refl)
    as [_ [_ [H3 H]]].
  split; [exact H3 | exact H].
Defined.

(** X29: [/api/chat/message] of [app.py], for a request whose message is a
    string that is not blank: the answer has status 200, with the text of the
    first message of the engine, exactly when the engine answers with status
    200 and a list that is not empty; in every other case it has status 503
    with the failure message of the adapter, and never status 400 or 500. *)
Theorem app_chat_message_status (w : AppWorld) (data : AppRequest) (m : string) :
  app_req_message data = Val m ->
  PyStr.strip m <> "" ->
  let session_id := ChatRoutes.get_default (app_req_session_id data) "default_user" in
  let outcome := app_post w App.webhook_url (mkAppPayload session_id (PyStr.strip m)) in
  let answer := App.chat_message w (Some data) in
  (forall first rest,
      outcome = AppReturns 200 (Ok (first :: rest)) ->
      answer = AppOk (match text first with Some t => t | None => "No response from AI" end)
                 session_id "rasa_ai" (now_isoformat w))
  /\ ((forall first rest, outcome <> AppReturns 200 (Ok (first :: rest))) ->
      answer = AppUnavailable (app_message (App.send_message w (PyStr.strip m) session_id))
                 (app_source (App.send_message w (PyStr.strip m) session_id))
                 (now_isoformat w)
      /\ app_message (App.send_message w (PyStr.strip m) session_id) <> "")
  /\ (forall e, answer <> AppBadRequest e)
  /\ (forall a b c, answer <> AppServerError a b c).
Proof.
  intros Hm Hs session_id outcome answer. subst answer.
  assert (Hrun : App.chat_message w (Some data)
                 = if app_success (App.send_message w (PyStr.strip m) session_id)
                   then AppOk (app_message (App.send_message w (PyStr.strip m) session_id))
                          session_id "rasa_ai" (now_isoformat w)
                   else AppUnavailable
                          (app_message (App.send_message w (PyStr.strip m) session_id))
                          (app_source (App.send_message w (PyStr.strip m) session_id))
                          (now_isoformat w)).
  { unfold App.chat_message, App.chat_message_body, App.no_data. rewrite Hm.
    cbn [bind]. apply String.eqb_neq in Hs. rewrite Hs. fold session_id.
    now destruct (app_success _). }
  rewrite Hrun. unfold App.send_message. fold outcome.
  split; [|split; [|split]].
  - intros first rest H. rewrite H. reflexivity.
  - intro H. destruct outcome as [|e|status body]; simpl; try (split; [reflexivity|discriminate]).
    destruct (status =? 200)%Z eqn:E; [|split; [reflexivity|discriminate]].
    apply Z.eqb_eq in E. subst status.
    destruct body as [[|first rest]|e]; simpl; try (split; [reflexivity|discriminate]).
    exfalso. exact (H first rest eq_refl).
  - intro e. destruct outcome as [|e'|status body]; simpl; try discriminate.
    destruct (status =? 200)%Z; [|discriminate].
    destruct body as [[|first rest]|e']; discriminate.
  - intros a b c. destruct outcome as [|e'|status body]; simpl; try discriminate.
    destruct (status =? 200)%Z; [|discriminate].
    destruct body as [[|first rest]|e']; discriminate.
Qed.

Lemma app_chat_message_status_witness :
  let w := mkAppWorld (fun _ _ => AppConnectionError) (fun _ => GetRaises) "2024-01-01" in
  let data := mkAppRequest (Val " hello ") Absent false in
  app_req_message data = Val " hello "
  /\ PyStr.strip " hello " <> ""
  /\ App.chat_message w (Some data)
     = AppUnavailable
         "AI assistant is currently unavailable. Please ensure Rasa server is running on port 5005."
         "connection_error" "2024-01-01".
Proof.
  intros w data.
  assert (H1 : app_req_message data = Val " hello ") by reflexivity.
  assert (H2 : PyStr.strip " hello " <> "") by discriminate.
  split; [exact H1|]. split; [exact H2|].
  destruct (app_chat_message_status w data " hello " H1 H2) as [_ [H _]].
  destruct H as [H _]; [discriminate|]. exact H.
Defined.
